(** * Exam engine: the persistence manager

    A shallow embedding of [DatabaseManager]
    (src/services/database/DatabaseManager.ts) and of the parts of its
    environment it talks to: the embedded SQL engine reached through
    [open], [execute] and [close], the clock, the console and the
    JSON serializer.  Strings are sequences of bytes (UTF-8). *)

From Stdlib Require Import String Ascii List ZArith QArith Lia Bool Arith.
From Stdlib Require Import Sorted Permutation DecimalString.
Import ListNotations.
Local Close Scope Q_scope.
Local Open Scope list_scope.
Local Open Scope string_scope.
Local Open Scope nat_scope.
Set Warnings "-register-all".

(** ** JavaScript errors and SQL values *)

(** [new Error(message)]; whatever the engine throws is an [Error] too. *)
Inductive JsError : Type :=
| Error (message : string).

Definition message (e : JsError) : string :=
  match e with Error m => m end.

(** A value bound to a [?] placeholder or found in a result row. *)
Inductive SqlValue : Type :=
| VText (s : string)
| VInt (n : Z)
| VReal (q : Q).

(** A result row is an object with one property per selected column. *)
Definition Row : Type := list (string * SqlValue).

(** [row.k]; [None] stands for [undefined]. *)
Fixpoint row_field (r : Row) (k : string) : option SqlValue :=
  match r with
  | [] => None
  | (k', v) :: r' => if String.eqb k k' then Some v else row_field r' k
  end.

(** [result.rows]: the engine hands back a result-set object with
    [length] and [item(i)]; the test double hands back a plain array. *)
Inductive Rows : Type :=
| RowsArray (items : list Row)
| RowsSet (length : nat) (item : nat -> Row).

Record QueryResult : Type := mkQueryResult { rows : option Rows }.

(** [rows.length] on either shape. *)
Definition rows_length (r : Rows) : nat :=
  match r with
  | RowsArray items => List.length items
  | RowsSet n _ => n
  end.

(** [result && result.rows && result.rows.length > 0] as a boolean. *)
Definition has_rows (result : option QueryResult) : bool :=
  match result with
  | None => false
  | Some q =>
      match rows q with
      | None => false
      | Some r => 0 <? rows_length r
      end
  end.

(** ** JSON

    [JSON.stringify] and [JSON.parse]: objects keep their properties
    in the order of the text, numbers are doubles, strings are UTF-8. *)
Module JSON.

(** A Number value: an IEEE 754 double.  A finite one is [m * 2^e]
    with [m] odd, or a zero ([m = 0], [e = 0]) of either sign. *)
Inductive number : Type :=
| NaN
| Infinity (negative : bool)
| Finite (negative : bool) (m : Z) (e : Z).

Inductive value : Type :=
| JNull
| JBool (b : bool)
| JNumber (x : number)
| JString (s : string)
| JArray (elems : list value)
| JObject (props : list (string * value)).

Local Open Scope Z_scope.

(** [m * 2^e] with the factors of two moved out of [m]. *)
Definition odd_mantissa (negative : bool) (m e : Z) : number :=
  if m =? 0 then Finite negative 0 0
  else
    let tz := Z.log2 (Z.land m (- m)) in
    Finite negative (Z.shiftr m tz) (e + tz).

(** The double nearest to [p / q] ([0 <= p], [0 < q]), ties to the
    even significand: 53 bits, exponents down to the subnormal
    [2^-1074], infinity from [2^1024] on. *)
Definition round_double (negative : bool) (p q : Z) : number :=
  if p =? 0 then Finite negative 0 0
  else
    let e2 := Z.log2 p - Z.log2 q in
    let above :=
      if 0 <=? e2 then q * 2 ^ e2 <=? p else q <=? p * 2 ^ (- e2) in
    let exponent := if above then e2 else e2 - 1 in
    let ex := Z.max (exponent - 52) (-1074) in
    let num := if ex <? 0 then p * 2 ^ (- ex) else p in
    let den := if ex <? 0 then q else q * 2 ^ ex in
    let m0 := num / den in
    let r := num mod den in
    let m :=
      if (den <? 2 * r) || ((den =? 2 * r) && Z.odd m0) then m0 + 1 else m0 in
    if (0 <=? ex) && (2 ^ 1024 <=? m * 2 ^ ex) then Infinity negative
    else odd_mantissa negative m ex.

(** The double nearest to [d * 10^x], [0 <= d].  Beyond the first two
    tests the value is far outside the range of the doubles. *)
Definition of_decimal (negative : bool) (d x : Z) : number :=
  if d =? 0 then Finite negative 0 0
  else if 309 <=? x then Infinity negative
  else if x + Z.log2 d <? -1100 then Finite negative 0 0
  else if 0 <=? x then round_double negative (d * 10 ^ x) 1
  else round_double negative d (10 ^ (- x)).

Definition of_Z (n : Z) : number := of_decimal (n <? 0) (Z.abs n) 0.

Definition decimal_digits (n : Z) : string :=
  NilZero.string_of_int (Z.to_int n).

Fixpoint zeros (n : nat) : string :=
  match n with
  | O => EmptyString
  | S n' => String "0" (zeros n')
  end.

(** The least [n] from the given one on with [p / q < 10^n]. *)
Fixpoint magnitude (fuel : nat) (p q n : Z) : Z :=
  match fuel with
  | O => n
  | S fuel' =>
      if (if 0 <=? n then p <? q * 10 ^ n else p * 10 ^ (- n) <? q)
      then n
      else magnitude fuel' p q (n + 1)
  end.

(** The digits [s] and the exponent [n] of Number::toString for the
    double [x = p / q]: the fewest digits [k], from the given [k] on,
    such that [s * 10^(n - k)] rounds to [x]; of two candidates of
    that length the nearer one, the even one when they are as near. *)
Fixpoint shortest (fuel : nat) (x : number) (p q n k : Z) : Z * Z :=
  match fuel with
  | O => (0, 0)
  | S fuel' =>
      let num := if n - k <? 0 then p * 10 ^ (k - n) else p in
      let den := if n - k <? 0 then q else q * 10 ^ (n - k) in
      let lo := num / den in
      let hi := lo + 1 in
      let rounds s :=
        match
          (if n - k <? 0 then round_double false s (10 ^ (k - n))
           else round_double false (s * 10 ^ (n - k)) 1), x
        with
        | Finite _ m e, Finite _ m' e' => (m =? m') && (e =? e')
        | _, _ => false
        end in
      let nearer_lo :=
        (2 * num <? (2 * lo + 1) * den)
        || ((2 * num =? (2 * lo + 1) * den) && Z.even lo) in
      let pick s := if s =? 10 ^ k then (1, n + 1) else (s, n) in
      match rounds lo && (0 <? lo), rounds hi with
      | true, true => pick (if nearer_lo then lo else hi)
      | true, false => pick lo
      | false, true => pick hi
      | false, false => shortest fuel' x p q n (k + 1)
      end
  end.

(** Number::toString in radix 10. *)
Definition to_string (x : number) : string :=
  match x with
  | NaN => "NaN"
  | Infinity false => "Infinity"
  | Infinity true => "-Infinity"
  | Finite negative m e =>
      if m =? 0 then "0"
      else
        let p := if 0 <=? e then m * 2 ^ e else m in
        let q := if 0 <=? e then 1 else 2 ^ (- e) in
        let n0 :=
          magnitude 12 p q ((Z.log2 p - Z.log2 q) * 30103 / 100000 - 3) in
        let (s, n) := shortest 17 (Finite false m e) p q n0 1 in
        let d := decimal_digits s in
        let k := Z.of_nat (String.length d) in
        let body :=
          if (k <=? n) && (n <=? 21) then d ++ zeros (Z.to_nat (n - k))
          else if (0 <? n) && (n <=? 21) then
            substring 0 (Z.to_nat n) d ++ "." ++
            substring (Z.to_nat n) (Z.to_nat (k - n)) d
          else if (-6 <? n) && (n <=? 0) then
            "0." ++ zeros (Z.to_nat (- n)) ++ d
          else
            (if k =? 1 then d
             else substring 0 1 d ++ "." ++ substring 1 (Z.to_nat (k - 1)) d)
            ++ "e" ++ (if n - 1 <? 0 then "-" else "+")
            ++ decimal_digits (Z.abs (n - 1)) in
        if negative then "-" ++ body else body
  end.

Local Close Scope Z_scope.

Definition dquote : ascii := "034"%char.
Definition backslash : ascii := "092"%char.

Definition hex_digit (n : nat) : ascii :=
  nth n (list_ascii_of_string "0123456789abcdef") "0"%char.

(** QuoteJSONString: the two-character escapes, [\u00XX] for the other
    control characters, everything else as it is. *)
Definition escape_char (c : ascii) : string :=
  let n := nat_of_ascii c in
  if Ascii.eqb c dquote then String backslash (String dquote EmptyString)
  else if Ascii.eqb c backslash then String backslash (String backslash EmptyString)
  else if n =? 8 then String backslash "b"
  else if n =? 12 then String backslash "f"
  else if n =? 10 then String backslash "n"
  else if n =? 13 then String backslash "r"
  else if n =? 9 then String backslash "t"
  else if n <? 32 then
    String backslash
      ("u00" ++ String (hex_digit (n / 16)) (String (hex_digit (n mod 16)) EmptyString))
  else String c EmptyString.

Fixpoint escape (s : string) : string :=
  match s with
  | EmptyString => EmptyString
  | String c s' => escape_char c ++ escape s'
  end.

Definition quote (s : string) : string :=
  String dquote (escape s ++ String dquote EmptyString).

(** A number that is not finite is serialized as [null]. *)
Definition number_to_string (x : number) : string :=
  match x with
  | Finite _ _ _ => to_string x
  | _ => "null"
  end.

Fixpoint stringify (v : value) : string :=
  match v with
  | JNull => "null"
  | JBool true => "true"
  | JBool false => "false"
  | JNumber x => number_to_string x
  | JString s => quote s
  | JArray elems =>
      "[" ++
      (fix items (l : list value) : string :=
         match l with
         | [] => EmptyString
         | x :: rest =>
             stringify x ++
             match rest with [] => EmptyString | _ :: _ => "," ++ items rest end
         end) elems ++ "]"
  | JObject props =>
      "{" ++
      (fix members (l : list (string * value)) : string :=
         match l with
         | [] => EmptyString
         | (k, x) :: rest =>
             quote k ++ ":" ++ stringify x ++
             match rest with [] => EmptyString | _ :: _ => "," ++ members rest end
         end) props ++ "}"
  end.

(** *** Parsing *)

Definition is_ws (c : ascii) : bool :=
  let n := nat_of_ascii c in
  (n =? 32) || (n =? 9) || (n =? 10) || (n =? 13).

Fixpoint skip_ws (s : list ascii) : list ascii :=
  match s with
  | c :: s' => if is_ws c then skip_ws s' else s
  | [] => []
  end.

Definition hex_value (c : ascii) : option nat :=
  let n := nat_of_ascii c in
  if (48 <=? n) && (n <=? 57) then Some (n - 48)
  else if (97 <=? n) && (n <=? 102) then Some (n - 87)
  else if (65 <=? n) && (n <=? 70) then Some (n - 55)
  else None.

(** The UTF-8 bytes of a code point. *)
Definition utf8 (cp : N) : list ascii :=
  (if cp <? 128 then [ascii_of_N cp]
   else if cp <? 2048 then
     [ascii_of_N (192 + cp / 64); ascii_of_N (128 + cp mod 64)]
   else if cp <? 65536 then
     [ascii_of_N (224 + cp / 4096);
      ascii_of_N (128 + (cp / 64) mod 64);
      ascii_of_N (128 + cp mod 64)]
   else
     [ascii_of_N (240 + cp / 262144);
      ascii_of_N (128 + (cp / 4096) mod 64);
      ascii_of_N (128 + (cp / 64) mod 64);
      ascii_of_N (128 + cp mod 64)])%N.

(** The code unit of [\uXXXX]. *)
Definition code_unit (h1 h2 h3 h4 : ascii) : option N :=
  match hex_value h1, hex_value h2, hex_value h3, hex_value h4 with
  | Some a, Some b, Some c, Some d =>
      Some (((N.of_nat a * 16 + N.of_nat b) * 16 + N.of_nat c) * 16
            + N.of_nat d)%N
  | _, _, _, _ => None
  end.

Definition is_high_surrogate (u : N) : bool :=
  ((55296 <=? u) && (u <=? 56319))%N.

Definition is_low_surrogate (u : N) : bool :=
  ((56320 <=? u) && (u <=? 57343))%N.

Definition unescape (c : ascii) : option ascii :=
  if Ascii.eqb c dquote then Some dquote
  else if Ascii.eqb c backslash then Some backslash
  else if Ascii.eqb c "/" then Some "/"%char
  else if Ascii.eqb c "b" then Some (ascii_of_nat 8)
  else if Ascii.eqb c "f" then Some (ascii_of_nat 12)
  else if Ascii.eqb c "n" then Some (ascii_of_nat 10)
  else if Ascii.eqb c "r" then Some (ascii_of_nat 13)
  else if Ascii.eqb c "t" then Some (ascii_of_nat 9)
  else None.

(** The characters of a string literal after its opening quote, up to
    and including the closing quote.  A high surrogate followed by a
    low one is one code point; a surrogate on its own, which UTF-8
    cannot hold, is kept as the three bytes of its code unit. *)
Fixpoint parse_chars (s : list ascii) (acc : list ascii)
  : option (string * list ascii) :=
  match s with
  | [] => None
  | c :: s' =>
      if Ascii.eqb c dquote then
        Some (string_of_list_ascii (rev acc), s')
      else if Ascii.eqb c backslash then
        match s' with
        | "u"%char :: h1 :: h2 :: h3 :: h4 :: s'' =>
            match code_unit h1 h2 h3 h4 with
            | Some u =>
                match s'' with
                | b :: "u"%char :: l1 :: l2 :: l3 :: l4 :: s3 =>
                    match code_unit l1 l2 l3 l4 with
                    | Some v =>
                        if Ascii.eqb b backslash && is_high_surrogate u
                           && is_low_surrogate v
                        then
                          parse_chars s3
                            (rev (utf8 (65536 + (u - 55296) * 1024
                                        + (v - 56320))%N) ++ acc)%list
                        else parse_chars s'' (rev (utf8 u) ++ acc)%list
                    | None => parse_chars s'' (rev (utf8 u) ++ acc)%list
                    end
                | _ => parse_chars s'' (rev (utf8 u) ++ acc)%list
                end
            | None => None
            end
        | e :: s'' =>
            match unescape e with
            | Some c' => parse_chars s'' (c' :: acc)
            | None => None
            end
        | [] => None
        end
      else if nat_of_ascii c <? 32 then None
      else parse_chars s' (c :: acc)
  end.

Definition is_digit (c : ascii) : bool :=
  let n := nat_of_ascii c in (48 <=? n) && (n <=? 57).

(** A run of digits: the number they write after those of [acc], how
    many they are, and what follows them. *)
Fixpoint parse_digits (s : list ascii) (acc count : Z) : Z * Z * list ascii :=
  match s with
  | c :: s' =>
      if is_digit c
      then parse_digits s' (10 * acc + Z.of_nat (nat_of_ascii c - 48))%Z
             (count + 1)%Z
      else (acc, count, s)
  | [] => (acc, count, [])
  end.

(** A number literal: an optional minus, an integer part that is [0]
    or begins with another digit, an optional fraction of one digit at
    least, an optional exponent of one digit at least. *)
Definition parse_number (s : list ascii) : option (number * list ascii) :=
  let (negative, s0) :=
    match s with
    | "-"%char :: r => (true, r)
    | _ => (false, s)
    end in
  match s0 with
  | d :: s1 =>
      if is_digit d then
        let '(int, _, r1) :=
          if Ascii.eqb d "0" then (0%Z, 1%Z, s1) else parse_digits s0 0 0 in
        let fraction :=
          match r1 with
          | "."%char :: f :: r2 =>
              if is_digit f then Some (parse_digits (f :: r2) int 0)
              else None
          | "."%char :: [] => None
          | _ => Some (int, 0%Z, r1)
          end in
        match fraction with
        | Some (mantissa, places, r3) =>
            match r3 with
            | e :: r4 =>
                if Ascii.eqb e "e" || Ascii.eqb e "E" then
                  let (down, r5) :=
                    match r4 with
                    | "-"%char :: r => (true, r)
                    | "+"%char :: r => (false, r)
                    | _ => (false, r4)
                    end in
                  match r5 with
                  | x :: _ =>
                      if is_digit x then
                        let '(ex, _, r6) := parse_digits r5 0 0 in
                        Some (of_decimal negative mantissa
                                ((if down then - ex else ex) - places)%Z,
                              r6)
                      else None
                  | [] => None
                  end
                else Some (of_decimal negative mantissa (- places)%Z, r3)
            | [] => Some (of_decimal negative mantissa (- places)%Z, [])
            end
        | None => None
        end
      else None
  | [] => None
  end.

Fixpoint parse_value (fuel : nat) (s : list ascii)
  : option (value * list ascii) :=
  match fuel with
  | O => None
  | S fuel' =>
      match skip_ws s with
      | "n"%char :: "u"%char :: "l"%char :: "l"%char :: r => Some (JNull, r)
      | "t"%char :: "r"%char :: "u"%char :: "e"%char :: r =>
          Some (JBool true, r)
      | "f"%char :: "a"%char :: "l"%char :: "s"%char :: "e"%char :: r =>
          Some (JBool false, r)
      | "["%char :: r =>
          match skip_ws r with
          | "]"%char :: r' => Some (JArray [], r')
          | r' =>
              match parse_elements fuel' r' with
              | Some (l, r'') => Some (JArray l, r'')
              | None => None
              end
          end
      | "{"%char :: r =>
          match skip_ws r with
          | "}"%char :: r' => Some (JObject [], r')
          | r' =>
              match parse_members fuel' r' with
              | Some (l, r'') => Some (JObject l, r'')
              | None => None
              end
          end
      | c :: r =>
          if Ascii.eqb c dquote then
            match parse_chars r [] with
            | Some (str, r') => Some (JString str, r')
            | None => None
            end
          else
            match parse_number (c :: r) with
            | Some (x, r') => Some (JNumber x, r')
            | None => None
            end
      | [] => None
      end
  end

with parse_elements (fuel : nat) (s : list ascii)
  : option (list value * list ascii) :=
  match fuel with
  | O => None
  | S fuel' =>
      match parse_value fuel' s with
      | Some (v, r) =>
          match skip_ws r with
          | ","%char :: r' =>
              match parse_elements fuel' r' with
              | Some (l, r'') => Some (v :: l, r'')
              | None => None
              end
          | "]"%char :: r' => Some ([v], r')
          | _ => None
          end
      | None => None
      end
  end

with parse_members (fuel : nat) (s : list ascii)
  : option (list (string * value) * list ascii) :=
  match fuel with
  | O => None
  | S fuel' =>
      match skip_ws s with
      | c :: r =>
          if Ascii.eqb c dquote then
            match parse_chars r [] with
            | Some (k, r1) =>
                match skip_ws r1 with
                | ":"%char :: r2 =>
                    match parse_value fuel' r2 with
                    | Some (v, r3) =>
                        match skip_ws r3 with
                        | ","%char :: r4 =>
                            match parse_members fuel' r4 with
                            | Some (l, r5) => Some ((k, v) :: l, r5)
                            | None => None
                            end
                        | "}"%char :: r4 => Some ([(k, v)], r4)
                        | _ => None
                        end
                    | None => None
                    end
                | _ => None
                end
            | None => None
            end
          else None
      | [] => None
      end
  end.

(** [JSON.parse]: one value and nothing but white space after it;
    [None] stands for the SyntaxError. *)
Definition parse (s : string) : option value :=
  let input := list_ascii_of_string s in
  match parse_value (S (List.length input)) input with
  | Some (v, r) =>
      match skip_ws r with
      | [] => Some v
      | _ :: _ => None
      end
  | None => None
  end.

End JSON.

(** ** SQL text sent to the engine *)

Definition sql_pragma_foreign_keys : string := "PRAGMA foreign_keys = ON".

Definition sql_create_migrations : string := "
      CREATE TABLE IF NOT EXISTS migrations (
        id INTEGER PRIMARY KEY,
        version TEXT NOT NULL UNIQUE,
        applied_at INTEGER NOT NULL
      )
    ".

Definition sql_select_version : string :=
  "SELECT version FROM migrations WHERE version = ?".

Definition sql_insert_migration : string :=
  "INSERT INTO migrations (version, applied_at) VALUES (?, ?)".

Definition sql_insert_exam : string := "
        INSERT OR REPLACE INTO exams 
        (id, name, code, provider, version, total_questions, time_limit_minutes, passing_score, blueprint_version, created_at, updated_at) 
        VALUES (?, ?, ?, ?, ?, ?, ?, ?, ?, ?, ?)
      ".

Definition sql_insert_topic : string := "
        INSERT OR REPLACE INTO topics 
        (id, exam_id, name, short_name, description, weight, icon, color, order_index) 
        VALUES (?, ?, ?, ?, ?, ?, ?, ?, ?)
      ".

Definition sql_insert_question : string := "
        INSERT OR REPLACE INTO questions 
        (id, exam_id, topic_id, question_type, difficulty, content_json, explanation, reference, tags, created_at, updated_at) 
        VALUES (?, ?, ?, ?, ?, ?, ?, ?, ?, ?, ?)
      ".

Definition sql_insert_content_pack : string := "
        INSERT OR REPLACE INTO content_packs 
        (exam_id, version, sha256_hash, installed_at, file_size, question_count, exhibit_count, status) 
        VALUES (?, ?, ?, ?, ?, ?, ?, ?)
      ".

Definition sql_table_exists : string :=
  "SELECT name FROM sqlite_master WHERE type='table' AND name=?".

Definition sql_all_tables : string :=
  "SELECT name FROM sqlite_master WHERE type='table' AND name NOT LIKE 'sqlite_%' ORDER BY name".

(** [getMigration001()]: the initial migration, as one batch. *)
Definition getMigration001 : string := "
      -- Exam configuration and metadata
      CREATE TABLE IF NOT EXISTS exams (
        id TEXT PRIMARY KEY,              -- 'cbap', 'pmp', 'az104'
        name TEXT NOT NULL,               -- 'CBAP Certification'
        code TEXT NOT NULL,               -- 'CBAP'
        provider TEXT,                    -- 'IIBA'
        version TEXT NOT NULL,            -- '2025.08.28'
        total_questions INTEGER NOT NULL, -- 150 for exam, 1200 in database
        time_limit_minutes INTEGER,       -- 210
        passing_score REAL,               -- 0.70
        blueprint_version TEXT,           -- 'v4.0'
        created_at INTEGER NOT NULL,
        updated_at INTEGER NOT NULL
      );

      -- Topic/domain taxonomy per exam
      CREATE TABLE IF NOT EXISTS topics (
        id TEXT PRIMARY KEY,              -- 'cbap_planning'
        exam_id TEXT NOT NULL,            -- 'cbap'
        name TEXT NOT NULL,               -- 'Business Analysis Planning'
        short_name TEXT,                  -- 'Planning'
        description TEXT,
        parent_id TEXT,                   -- For subtopics
        weight REAL,                      -- 0.16 (16% of exam)
        icon TEXT,                        -- 'ðŸŽ¯'
        color TEXT,                       -- '#2B5CE6'
        order_index INTEGER DEFAULT 0,
        FOREIGN KEY (exam_id) REFERENCES exams(id),
        FOREIGN KEY (parent_id) REFERENCES topics(id)
      );

      -- Enhanced questions table with flexible content
      CREATE TABLE IF NOT EXISTS questions (
        id TEXT PRIMARY KEY,              -- UUID
        exam_id TEXT NOT NULL,            -- 'cbap'
        topic_id TEXT NOT NULL,           -- 'cbap_planning'
        question_type TEXT NOT NULL,      -- 'single', 'multi', 'match', etc.
        difficulty TEXT NOT NULL,         -- 'easy', 'medium', 'hard'
        content_json TEXT NOT NULL,       -- Flexible question content
        explanation TEXT,                 -- Answer explanation
        rationale TEXT,                   -- Why other answers are wrong
        reference TEXT,                   -- BABOK section reference
        tags TEXT,                        -- JSON array of tags
        created_at INTEGER NOT NULL,
        updated_at INTEGER NOT NULL,
        FOREIGN KEY (exam_id) REFERENCES exams(id),
        FOREIGN KEY (topic_id) REFERENCES topics(id)
      );

      -- Question exhibits and media assets
      CREATE TABLE IF NOT EXISTS exhibits (
        id TEXT PRIMARY KEY,              -- UUID
        exam_id TEXT NOT NULL,            -- 'cbap'
        filename TEXT NOT NULL,           -- 'process_diagram.png'
        uri TEXT NOT NULL,                -- 'assets/exhibits/process_diagram.png'
        content_type TEXT NOT NULL,       -- 'image/png'
        file_size INTEGER,                -- bytes
        width INTEGER,                    -- pixels
        height INTEGER,                   -- pixels
        description TEXT,                 -- Alt text for accessibility
        created_at INTEGER NOT NULL,
        FOREIGN KEY (exam_id) REFERENCES exams(id)
      );

      -- Many-to-many relationship between questions and exhibits
      CREATE TABLE IF NOT EXISTS question_exhibits (
        question_id TEXT NOT NULL,
        exhibit_id TEXT NOT NULL,
        order_index INTEGER DEFAULT 0,
        PRIMARY KEY (question_id, exhibit_id),
        FOREIGN KEY (question_id) REFERENCES questions(id) ON DELETE CASCADE,
        FOREIGN KEY (exhibit_id) REFERENCES exhibits(id) ON DELETE CASCADE
      );

      -- User practice attempts and sessions
      CREATE TABLE IF NOT EXISTS attempts (
        id TEXT PRIMARY KEY,              -- UUID
        exam_id TEXT NOT NULL,            -- 'cbap'
        session_type TEXT NOT NULL,       -- 'adaptive', 'quick', 'full_exam'
        started_at INTEGER NOT NULL,
        completed_at INTEGER,
        total_questions INTEGER NOT NULL,
        correct_answers INTEGER DEFAULT 0,
        score REAL DEFAULT 0.0,           -- 0.0 to 1.0
        time_limit_seconds INTEGER,
        time_spent_seconds INTEGER,
        is_completed BOOLEAN DEFAULT FALSE,
        device_id TEXT NOT NULL,          -- Pseudonymous device identifier
        FOREIGN KEY (exam_id) REFERENCES exams(id)
      );

      -- Individual question responses within attempts
      CREATE TABLE IF NOT EXISTS attempt_items (
        attempt_id TEXT NOT NULL,
        question_id TEXT NOT NULL,
        given_answers TEXT NOT NULL,      -- JSON array of selected choice IDs
        is_correct BOOLEAN NOT NULL,
        partial_score REAL DEFAULT 0.0,   -- For partial credit questions
        time_spent_seconds INTEGER NOT NULL,
        flagged BOOLEAN DEFAULT FALSE,
        reviewed BOOLEAN DEFAULT FALSE,
        answered_at INTEGER NOT NULL,
        PRIMARY KEY (attempt_id, question_id),
        FOREIGN KEY (attempt_id) REFERENCES attempts(id) ON DELETE CASCADE,
        FOREIGN KEY (question_id) REFERENCES questions(id)
      );

      -- Aggregated progress tracking by topic
      CREATE TABLE IF NOT EXISTS progress (
        exam_id TEXT NOT NULL,
        topic_id TEXT NOT NULL,
        questions_attempted INTEGER DEFAULT 0,
        questions_correct INTEGER DEFAULT 0,
        accuracy REAL DEFAULT 0.0,
        proficiency_score REAL DEFAULT 0.5,  -- EWMA-based proficiency (0.0-1.0)
        last_practiced_at INTEGER,
        practice_streak INTEGER DEFAULT 0,
        total_time_spent INTEGER DEFAULT 0,   -- seconds
        updated_at INTEGER NOT NULL,
        PRIMARY KEY (exam_id, topic_id),
        FOREIGN KEY (exam_id) REFERENCES exams(id),
        FOREIGN KEY (topic_id) REFERENCES topics(id)
      );

      -- User preferences and settings
      CREATE TABLE IF NOT EXISTS user_preferences (
        key TEXT PRIMARY KEY,
        value TEXT NOT NULL,
        updated_at INTEGER NOT NULL
      );

      -- Content pack metadata and versioning
      CREATE TABLE IF NOT EXISTS content_packs (
        exam_id TEXT NOT NULL,
        version TEXT NOT NULL,
        sha256_hash TEXT NOT NULL,
        installed_at INTEGER NOT NULL,
        file_size INTEGER NOT NULL,
        question_count INTEGER NOT NULL,
        exhibit_count INTEGER NOT NULL,
        status TEXT DEFAULT 'active',     -- 'active', 'updating', 'archived'
        PRIMARY KEY (exam_id, version),
        FOREIGN KEY (exam_id) REFERENCES exams(id)
      );

      -- Indexes for performance optimization
      CREATE INDEX IF NOT EXISTS idx_questions_exam_topic ON questions(exam_id, topic_id);
      CREATE INDEX IF NOT EXISTS idx_questions_difficulty ON questions(difficulty);
      CREATE INDEX IF NOT EXISTS idx_questions_type ON questions(question_type);
      CREATE INDEX IF NOT EXISTS idx_attempts_exam_completed ON attempts(exam_id, is_completed);
      CREATE INDEX IF NOT EXISTS idx_attempt_items_question ON attempt_items(question_id);
      CREATE INDEX IF NOT EXISTS idx_progress_exam_accuracy ON progress(exam_id, accuracy);
      CREATE INDEX IF NOT EXISTS idx_progress_last_practiced ON progress(last_practiced_at);
    ".

(** ** The embedded engine, as the manager sees it *)

(** [open({name})] yields a connection or throws; [execute] runs one
    statement text (a single statement or a batch) with optional bound
    parameters and yields a result, [undefined], or throws; [close]
    releases the connection.  The manager calls [open] and [execute]
    inside [try] blocks and [close] outside of any: the release is a
    plain state change.  [Date_now] reads the clock. *)
Record Engine : Type := mkEngine {
  Conn : Type;
  World : Type;
  open : string -> World -> World * (JsError + Conn);
  conn_execute :
    Conn -> string -> option (list SqlValue) -> World ->
    World * (JsError + option QueryResult);
  conn_close : Conn -> World -> World;
  Date_now : World -> Z
}.

(** What the manager asked of the engine, in order. *)
Inductive Event (C : Type) : Type :=
| EvOpen (name : string)
| EvExecute (c : C) (sql : string) (params : option (list SqlValue))
| EvClose (c : C).

Arguments EvOpen {C} name.
Arguments EvExecute {C} c sql params.
Arguments EvClose {C} c.


Inductive ConsoleMsg : Type :=
| ConsoleLog (text : string)
| ConsoleError (text : string) (error : JsError).

Definition dbName : string := "exam_engine.db".

Section Manager.

Variable E : Engine.

(** The manager's one field [db], the engine behind it, and the two
    logs the model keeps: engine calls and console lines. *)
Record State : Type := mkState {
  db : option (Conn E);
  world : World E;
  trace : list (Event (Conn E));
  console : list ConsoleMsg
}.

(** *** Methods run in a state monad with exceptions *)

Definition M (A : Type) : Type := State -> State * (JsError + A).

Definition ret {A} (a : A) : M A := fun s => (s, inr a).

Definition throw {A} (e : JsError) : M A := fun s => (s, inl e).

Definition bind {A B} (m : M A) (k : A -> M B) : M B :=
  fun s =>
    match m s with
    | (s', inr a) => k a s'
    | (s', inl e) => (s', inl e)
    end.

Definition try_catch {A} (m : M A) (handler : JsError -> M A) : M A :=
  fun s =>
    match m s with
    | (s', inl e) => handler e s'
    | (s', inr a) => (s', inr a)
    end.

Notation "x <- m ;; k" := (bind m (fun x => k))
  (at level 61, m at next level, right associativity).
Notation "m ;; k" := (bind m (fun _ => k))
  (at level 61, right associativity).

(** [this.db] *)
Definition this_db_field : M (option (Conn E)) :=
  fun s => (s, inr (db s)).

(** [this.db = d] *)
Definition set_db (d : option (Conn E)) : M unit :=
  fun s => (mkState d (world s) (trace s) (console s), inr tt).

(** [this.db.m(...)]: the receiver, or the TypeError of a call on null. *)
Definition this_db : M (Conn E) :=
  d <- this_db_field ;;
  match d with
  | Some c => ret c
  | None => throw (Error "Cannot read properties of null")
  end.

Definition js_open (name : string) : M (Conn E) :=
  fun s =>
    let (w, r) := open E name (world s) in
    (mkState (db s) w (trace s ++ [EvOpen name]) (console s), r).

Definition db_execute (c : Conn E) (sql : string)
    (params : option (list SqlValue)) : M (option QueryResult) :=
  fun s =>
    let (w, r) := conn_execute E c sql params (world s) in
    (mkState (db s) w (trace s ++ [EvExecute c sql params]) (console s), r).

Definition db_close (c : Conn E) : M unit :=
  fun s =>
    (mkState (db s) (conn_close E c (world s)) (trace s ++ [EvClose c])
       (console s), inr tt).

Definition now : M Z := fun s => (s, inr (Date_now E (world s))).

Definition console_log (text : string) : M unit :=
  fun s =>
    (mkState (db s) (world s) (trace s) (console s ++ [ConsoleLog text]),
     inr tt).

Definition console_error (text : string) (e : JsError) : M unit :=
  fun s =>
    (mkState (db s) (world s) (trace s) (console s ++ [ConsoleError text e]),
     inr tt).

(** [for (const x of l) { await body(x) }] *)
Fixpoint for_of {A} (l : list A) (body : A -> M unit) : M unit :=
  match l with
  | [] => ret tt
  | x :: l' => body x ;; for_of l' body
  end.

Definition not_available : JsError :=
  Error "Database connection not available".

(** *** DatabaseManager *)

(** Run a single migration if it has not been applied yet. *)
Definition runMigration (version migration : string) : M unit :=
  d <- this_db_field ;;
  match d with
  | None => throw not_available
  | Some _ =>
      c <- this_db ;;
      result <- db_execute c sql_select_version (Some [VText version]) ;;
      if has_rows result then
        console_log ("Migration " ++ version ++ " already applied")
      else
        try_catch
          (console_log ("Applying migration " ++ version ++ "...") ;;
           c1 <- this_db ;;
           db_execute c1 migration None ;;
           c2 <- this_db ;;
           t <- now ;;
           db_execute c2 sql_insert_migration
             (Some [VText version; VInt t]) ;;
           console_log ("Migration " ++ version ++ " applied successfully"))
          (fun error =>
             console_error ("Failed to apply migration " ++ version ++ ":")
               error ;;
             throw error)
  end.

Definition migrations : list (string * string) :=
  [("001_initial", getMigration001)].

(** Run database migrations in order. *)
Definition runMigrations : M unit :=
  d <- this_db_field ;;
  match d with
  | None => throw not_available
  | Some _ =>
      c <- this_db ;;
      db_execute c sql_create_migrations None ;;
      for_of migrations (fun vm => runMigration (fst vm) (snd vm))
  end.

(** Initialize database connection and run migrations. *)
Definition initialize : M unit :=
  d <- this_db_field ;;
  match d with
  | Some _ => ret tt
  | None =>
      try_catch
        (c <- js_open dbName ;;
         set_db (Some c) ;;
         console_log ("Database " ++ dbName ++ " opened successfully") ;;
         c' <- this_db ;;
         db_execute c' sql_pragma_foreign_keys None ;;
         runMigrations)
        (fun error =>
           console_error "Failed to initialize database:" error ;;
           throw error)
  end.

(** Get database connection. *)
Definition getConnection : M (Conn E) :=
  d <- this_db_field ;;
  match d with
  | None => throw (Error "Database not initialized. Call initialize() first.")
  | Some c => ret c
  end.

(** Close database connection. *)
Definition close : M unit :=
  d <- this_db_field ;;
  match d with
  | Some c =>
      db_close c ;;
      set_db None ;;
      console_log "Database connection closed"
  | None => ret tt
  end.

(** The question of the fixture set, before serialization. *)
Definition questionObject : JSON.value :=
  JSON.JObject
    [("stem", JSON.JString "Which activity is part of Business Analysis Planning?");
     ("choices",
      JSON.JArray
        [JSON.JObject
           [("id", JSON.JString "A");
            ("text", JSON.JString "Define stakeholder roles and responsibilities");
            ("isCorrect", JSON.JBool true)];
         JSON.JObject
           [("id", JSON.JString "B");
            ("text", JSON.JString "Elicit requirements from stakeholders");
            ("isCorrect", JSON.JBool false)];
         JSON.JObject
           [("id", JSON.JString "C");
            ("text", JSON.JString "Test the final solution");
            ("isCorrect", JSON.JBool false)];
         JSON.JObject
           [("id", JSON.JString "D");
            ("text", JSON.JString "Implement approved changes");
            ("isCorrect", JSON.JBool false)]]);
     ("correct", JSON.JArray [JSON.JString "A"]);
     ("shuffleChoices", JSON.JBool true)].

Definition questionContent : string := JSON.stringify questionObject.

Definition exam_params (t : Z) : list SqlValue :=
  [VText "cbap";
   VText "Certified Business Analysis Professional";
   VText "CBAP";
   VText "IIBA";
   VText "2025.01.01";
   VInt 150;
   VInt 210;
   VReal (70 # 100);
   VText "v4.0";
   VInt t;
   VInt t].

Definition topic_params : list SqlValue :=
  [VText "cbap_planning";
   VText "cbap";
   VText "Business Analysis Planning";
   VText "Planning";
   VText "Planning and monitoring of business analysis activities";
   VReal (16 # 100);
   VText "ðŸŽ¯";
   VText "#2B5CE6";
   VInt 1].

Definition question_params (t : Z) : list SqlValue :=
  [VText "q_cbap_planning_001";
   VText "cbap";
   VText "cbap_planning";
   VText "single";
   VText "medium";
   VText questionContent;
   VText "Business Analysis Planning involves defining how BA activities will be conducted, including stakeholder roles and responsibilities.";
   VText "BABOK 3.1.2";
   VText (JSON.stringify
            (JSON.JArray
               [JSON.JString "planning"; JSON.JString "stakeholder";
                JSON.JString "roles"]));
   VInt t;
   VInt t].

Definition content_pack_params (t : Z) : list SqlValue :=
  [VText "cbap";
   VText "2025.01.01";
   VText "test_hash_123";
   VInt t;
   VInt 1024;
   VInt 1;
   VInt 0;
   VText "active"].

(** Load test fixtures for development and testing. *)
Definition loadFixtures : M unit :=
  d <- this_db_field ;;
  match d with
  | None => throw not_available
  | Some _ =>
      t <- now ;;
      try_catch
        (c1 <- this_db ;;
         db_execute c1 sql_insert_exam (Some (exam_params t)) ;;
         c2 <- this_db ;;
         db_execute c2 sql_insert_topic (Some topic_params) ;;
         c3 <- this_db ;;
         db_execute c3 sql_insert_question (Some (question_params t)) ;;
         c4 <- this_db ;;
         db_execute c4 sql_insert_content_pack
           (Some (content_pack_params t)) ;;
         console_log "Test fixtures loaded successfully")
        (fun error =>
           console_error "Failed to load test fixtures:" error ;;
           throw error)
  end.

(** Check if a table exists in the database. *)
Definition tableExists (tableName : string) : M bool :=
  d <- this_db_field ;;
  match d with
  | None => throw not_available
  | Some _ =>
      c <- this_db ;;
      result <- db_execute c sql_table_exists (Some [VText tableName]) ;;
      ret (has_rows result)
  end.

(** [for (let i = ...; i < length; i++) tables.push(rows.item(i).name)],
    with [count] iterations left. *)
Fixpoint push_names (item : nat -> Row) (i count : nat)
    (tables : list (option SqlValue)) : list (option SqlValue) :=
  match count with
  | O => tables
  | S count' =>
      push_names item (S i) count' (tables ++ [row_field (item i) "name"])%list
  end.

(** Get all table names in the database.  A name is the [name]
    property of a row, [None] where the row has none. *)
Definition getAllTables : M (list (option SqlValue)) :=
  d <- this_db_field ;;
  match d with
  | None => throw not_available
  | Some _ =>
      c <- this_db ;;
      result <- db_execute c sql_all_tables None ;;
      match result with
      | Some q =>
          match rows q with
          | Some (RowsArray items) =>
              ret (map (fun row => row_field row "name") items)
          | Some (RowsSet n item) => ret (push_names item 0 n [])
          | None => ret []
          end
      | None => ret []
      end
  end.

End Manager.

Arguments db {E} s.
Arguments world {E} s.
Arguments trace {E} s.
Arguments console {E} s.
Arguments mkState {E} db world trace console.


(** The engine calls made between two states of one run. *)
Definition issued {E} (s s' : State E) : list (Event (Conn E)) :=
  skipn (List.length (trace s)) (trace s').

(** ** The test double

    The engine of the unit tests: [open] always hands out the one mock
    connection, [close] does nothing, and [execute] is a [jest.fn()]
    that serves the outcomes queued with [mockReturnValueOnce] and then
    falls back on its default implementation ([undefined] after a
    reset, a thrower after [mockImplementation]). *)
Module Mock.

Definition Outcome : Type := (JsError + option QueryResult)%type.

Record World : Type := mkWorld {
  once : list Outcome;
  fallback : Outcome;
  clock : Z
}.

Definition execute (_ : unit) (_ : string) (_ : option (list SqlValue))
    (w : World) : World * Outcome :=
  match once w with
  | o :: rest => (mkWorld rest (fallback w) (clock w), o)
  | [] => (w, fallback w)
  end.

Definition engine : Engine :=
  mkEngine unit World
    (fun _ w => (w, inr tt))
    execute
    (fun _ w => w)
    clock.

(** [{rows: items}] *)
Definition returns (items : list Row) : Outcome :=
  inr (Some (mkQueryResult (Some (RowsArray items)))).

Definition undefined : Outcome := inr None.

Definition throws (msg : string) : Outcome := inl (Error msg).

(** A manager fresh from [getInstance()] over a reset mock. *)
Definition fresh (script : list Outcome) (default : Outcome) : State engine :=
  mkState (E := engine) None (mkWorld script default 1756339200000%Z) [] [].

End Mock.

(** ** The SQL engine

    The engine is a library outside the repository: SQLite behind the
    [execute] of react-native-quick-sqlite.  This is what that
    [execute] does with the statements above, on a store that keeps
    its schema catalogue ([sqlite_master]) and the rows of the
    [migrations] table.  Rows of the other tables are not kept. *)
Module Sqlite.

(** [LIKE] folds the case of ASCII letters only. *)
Definition fold_case (c : ascii) : ascii :=
  let n := nat_of_ascii c in
  if (65 <=? n) && (n <=? 90) then ascii_of_nat (n + 32) else c.

(** [subject LIKE pattern]: [%] stands for any run of characters, [_]
    for any one character, anything else for itself up to case. *)
Fixpoint like_chars (pattern : list ascii) : list ascii -> bool :=
  match pattern with
  | [] => fun s => match s with [] => true | _ :: _ => false end
  | p :: pattern' =>
      if Ascii.eqb p "%" then
        fix any (s : list ascii) : bool :=
          like_chars pattern' s ||
          match s with [] => false | _ :: s' => any s' end
      else if Ascii.eqb p "_" then
        fun s =>
          match s with [] => false | _ :: s' => like_chars pattern' s' end
      else
        fun s =>
          match s with
          | [] => false
          | c :: s' =>
              Ascii.eqb (fold_case p) (fold_case c) && like_chars pattern' s'
          end
  end.

Definition like (subject pattern : string) : bool :=
  like_chars (list_ascii_of_string pattern) (list_ascii_of_string subject).

(** [ORDER BY name]: the BINARY collation compares byte by byte. *)
Fixpoint insert_sorted (x : string) (l : list string) : list string :=
  match l with
  | [] => [x]
  | y :: l' => if String.leb x y then x :: l else y :: insert_sorted x l'
  end.

Fixpoint order_by (l : list string) : list string :=
  match l with
  | [] => []
  | x :: l' => insert_sorted x (order_by l')
  end.

(** A row of [sqlite_master]. *)
Record SchemaRow : Type := mkSchemaRow {
  obj_type : string;
  obj_name : string
}.

Definition is_table (r : SchemaRow) : bool := String.eqb (obj_type r) "table".

Definition is_view (r : SchemaRow) : bool := String.eqb (obj_type r) "view".

Definition is_index (r : SchemaRow) : bool := String.eqb (obj_type r) "index".

(** [SELECT name FROM sqlite_master WHERE type='table'
      AND name NOT LIKE 'sqlite_%' ORDER BY name] *)
Definition select_all_tables (schema : list SchemaRow) : list string :=
  order_by
    (map obj_name
       (filter (fun r => is_table r && negb (like (obj_name r) "sqlite_%"))
          schema)).

(** [SELECT name FROM sqlite_master WHERE type='table' AND name=?]:
    the comparison of the [name] column is byte by byte. *)
Definition select_table (schema : list SchemaRow) (n : string) : list string :=
  map obj_name
    (filter (fun r => is_table r && String.eqb (obj_name r) n) schema).

Record Store : Type := mkStore {
  schema : list SchemaRow;
  tracking : list (string * Z);
  clock : Z
}.

(** A statement finds the objects it names without regard to the case
    of ASCII letters. *)
Fixpoint fold_name (n : string) : string :=
  match n with
  | EmptyString => EmptyString
  | String c n' => String (fold_case c) (fold_name n')
  end.

Definition same_name (a b : string) : bool :=
  String.eqb (fold_name a) (fold_name b).

(** What a table name in a statement resolves to: a table or a view. *)
Definition find_table (schema : list SchemaRow) (n : string) : bool :=
  existsb (fun r => (is_table r || is_view r) && same_name (obj_name r) n)
    schema.

Definition find_index (schema : list SchemaRow) (n : string) : bool :=
  existsb (fun r => is_index r && same_name (obj_name r) n) schema.

(** [CREATE TABLE IF NOT EXISTS n (...)]: nothing to do when a table or
    a view of that name is there, refused when an index has the name,
    a new catalogue row otherwise (the automatic indexes of the engine
    are left out of the catalogue). *)
Definition create_table_if_not_exists (n : string) (schema : list SchemaRow)
  : string + list SchemaRow :=
  if find_table schema n then inr schema
  else if find_index schema n then
    inl ("there is already an index named " ++ n)
  else inr (schema ++ [mkSchemaRow "table" n])%list.

(** Whether rows can be written to the table a statement names; the
    engine's message when not. *)
Definition not_writable (schema : list SchemaRow) (n : string)
  : option string :=
  if existsb (fun r => is_table r && same_name (obj_name r) n) schema
  then None
  else
    match find (fun r => is_view r && same_name (obj_name r) n) schema with
    | Some r => Some ("cannot modify " ++ obj_name r ++ " because it is a view")
    | None => Some ("no such table: " ++ n)
    end.

(** The tables and the indexes that the text of the initial migration
    names, in the order of the text. *)
Definition migration001_tables : list string :=
  ["exams"; "topics"; "questions"; "exhibits"; "question_exhibits";
   "attempts"; "attempt_items"; "progress"; "user_preferences";
   "content_packs"].

Definition migration001_indexes : list string :=
  ["idx_questions_exam_topic"; "idx_questions_difficulty";
   "idx_questions_type"; "idx_attempts_exam_completed";
   "idx_attempt_items_question"; "idx_progress_exam_accuracy";
   "idx_progress_last_practiced"].

(** The catalogue after every statement of the initial migration has
    been run on a store that held the tracking table only. *)
Definition migration001_schema : list SchemaRow :=
  (mkSchemaRow "table" "migrations"
     :: map (mkSchemaRow "table") migration001_tables
     ++ map (mkSchemaRow "index") migration001_indexes)%list.

(** A result set over one text column. *)
Definition result_set (column : string) (values : list string)
  : option QueryResult :=
  Some (mkQueryResult
          (Some (RowsSet (List.length values)
                   (fun i =>
                      match nth_error values i with
                      | Some v => [(column, VText v)]
                      | None => []
                      end)))).

Definition no_rows : option QueryResult := result_set EmptyString [].

(** The error [execute] throws when SQLite refuses a statement. *)
Definition sql_error (msg : string) : JsError :=
  Error ("[react-native-quick-sqlite] SQL execution error: " ++ msg).

Definition tick (w : Store) : Store :=
  mkStore (schema w) (tracking w) (clock w + 1).

(** [execute] prepares its text once and runs the statement prepared:
    the first statement of the text, which ends at the first [;].
    What follows in the text is not run.  (In the texts of the manager
    no [;] stands inside a comment or a literal.) *)
Fixpoint first_statement (sql : string) : string :=
  match sql with
  | EmptyString => EmptyString
  | String c sql' =>
      if Ascii.eqb c ";" then EmptyString else String c (first_statement sql')
  end.

(** The first statement of the initial migration: the comment above it
    and [CREATE TABLE IF NOT EXISTS exams (...)]. *)
Definition create_exams : string := first_statement getMigration001.

Definition create_table (n : string) (w : Store)
  : Store * (JsError + option QueryResult) :=
  match create_table_if_not_exists n (schema w) with
  | inr schema' => (mkStore schema' (tracking w) (clock w), inr no_rows)
  | inl msg => (w, inl (sql_error msg))
  end.

(** [INSERT OR REPLACE INTO n ...] with every placeholder bound, for a
    table whose rows the store does not keep: accepted when the table
    is there (the constraints on its rows are not modelled). *)
Definition insert_or_replace (n : string) (w : Store)
  : Store * (JsError + option QueryResult) :=
  match not_writable (schema w) n with
  | None => (w, inr no_rows)
  | Some msg => (w, inl (sql_error msg))
  end.

(** A binding that the manager never sends; what the engine would do
    with it is not modelled. *)
Definition other_binding : JsError := Error "binding not modelled".

(** The statements of the manager, told apart by their text.  A
    statement is answered as the manager sends it, with one value per
    placeholder.  Any other text or binding is none of the manager's:
    an unknown text passes without effect, a binding of another shape
    is refused with [other_binding]. *)
Definition execute (_ : string) (sql : string)
    (params : option (list SqlValue)) (w : Store)
  : Store * (JsError + option QueryResult) :=
  let w := tick w in
  let statement := first_statement sql in
  if String.eqb statement sql_create_migrations then
    create_table "migrations" w
  else if String.eqb statement create_exams then
    create_table "exams" w
  else if String.eqb statement sql_select_version then
    match params with
    | Some [VText v] =>
        if find_table (schema w) "migrations" then
          (w, inr (result_set "version"
                     (filter (String.eqb v) (map fst (tracking w)))))
        else (w, inl (sql_error "no such table: migrations"))
    | _ => (w, inl other_binding)
    end
  else if String.eqb statement sql_insert_migration then
    match params with
    | Some [VText v; VInt t] =>
        match not_writable (schema w) "migrations" with
        | Some msg => (w, inl (sql_error msg))
        | None =>
            if existsb (String.eqb v) (map fst (tracking w)) then
              (w, inl (sql_error "UNIQUE constraint failed: migrations.version"))
            else
              (mkStore (schema w) (tracking w ++ [(v, t)])%list (clock w),
               inr no_rows)
        end
    | _ => (w, inl other_binding)
    end
  else if String.eqb statement sql_table_exists then
    match params with
    | Some [VText n] => (w, inr (result_set "name" (select_table (schema w) n)))
    | _ => (w, inl other_binding)
    end
  else if String.eqb statement sql_all_tables then
    (w, inr (result_set "name" (select_all_tables (schema w))))
  else if String.eqb statement sql_insert_exam then
    insert_or_replace "exams" w
  else if String.eqb statement sql_insert_topic then
    insert_or_replace "topics" w
  else if String.eqb statement sql_insert_question then
    insert_or_replace "questions" w
  else if String.eqb statement sql_insert_content_pack then
    insert_or_replace "content_packs" w
  else (w, inr no_rows).

(** Connections are named after the file they open. *)
Definition engine : Engine :=
  mkEngine string Store
    (fun name w => (w, inr name))
    execute
    (fun _ w => w)
    clock.

(** Names that begin with the prefix reserved for the engine's own
    tables. *)
Definition is_system_name (n : string) : bool := String.prefix "sqlite_" n.

(** The tables of a store that are not the engine's own, in ascending
    order. *)
Definition user_tables (schema : list SchemaRow) : list string :=
  order_by
    (map obj_name
       (filter (fun r => is_table r && negb (is_system_name (obj_name r)))
          schema)).

(** What ['sqlite_%'] matches: the six letters in either case and at
    least one more character. *)
Definition begins_with_sqlite (n : string) : bool :=
  match list_ascii_of_string n with
  | c1 :: c2 :: c3 :: c4 :: c5 :: c6 :: _ :: _ =>
      String.eqb
        (string_of_list_ascii (map fold_case [c1; c2; c3; c4; c5; c6]))
        "sqlite"
  | _ => false
  end.

(** The names of the tables that the pattern does not match, in
    catalogue order. *)
Definition listed (schema : list SchemaRow) : list string :=
  map obj_name
    (filter (fun r => is_table r && negb (begins_with_sqlite (obj_name r)))
       schema).

(** Ascending byte order. *)
Definition ascending (a b : string) : Prop := String.leb a b = true.

(** A store none of whose tables has a name that the pattern matches
    without being a system name. *)
Definition no_lookalike (schema : list SchemaRow) : Prop :=
  forall r, In r schema -> is_table r = true ->
            like (obj_name r) "sqlite_%" = true ->
            is_system_name (obj_name r) = true.

End Sqlite.

(** ** Vocabulary of the properties *)

(** A computation that leaves [this.db] as it found it, whatever the
    engine answers and however the computation ends. *)
Definition preserves_db {E : Engine} {A} (m : M E A) : Prop :=
  forall s, db (fst (m s)) = db s.

Definition event_sql {C} (e : Event C) : string :=
  match e with
  | EvExecute _ sql _ => sql
  | _ => EmptyString
  end.

Definition event_params {C} (e : Event C) : option (list SqlValue) :=
  match e with
  | EvExecute _ _ params => params
  | _ => None
  end.

(** The statements of a fixture load, in the order they are issued. *)
Definition fixture_events {E : Engine} (c : Conn E) (t : Z)
  : list (Event (Conn E)) :=
  [EvExecute c sql_insert_exam (Some (exam_params t));
   EvExecute c sql_insert_topic (Some topic_params);
   EvExecute c sql_insert_question (Some (question_params t));
   EvExecute c sql_insert_content_pack (Some (content_pack_params t))].

(** Table names as [getAllTables] returns them. *)
Definition text_names (names : list string) : list (option SqlValue) :=
  map (fun n => Some (VText n)) names.

(** The structure the unit test expects the fixture question to parse
    to. *)
Definition expected_question : JSON.value :=
  JSON.JObject
    [("stem",
      JSON.JString "Which activity is part of Business Analysis Planning?");
     ("choices",
      JSON.JArray
        [JSON.JObject
           [("id", JSON.JString "A");
            ("text",
             JSON.JString "Define stakeholder roles and responsibilities");
            ("isCorrect", JSON.JBool true)];
         JSON.JObject
           [("id", JSON.JString "B");
            ("text", JSON.JString "Elicit requirements from stakeholders");
            ("isCorrect", JSON.JBool false)];
         JSON.JObject
           [("id", JSON.JString "C");
            ("text", JSON.JString "Test the final solution");
            ("isCorrect", JSON.JBool false)];
         JSON.JObject
           [("id", JSON.JString "D");
            ("text", JSON.JString "Implement approved changes");
            ("isCorrect", JSON.JBool false)]]);
     ("correct", JSON.JArray [JSON.JString "A"]);
     ("shuffleChoices", JSON.JBool true)].

(** ** Concrete managers *)
Module Scenario.

Definition ok : Mock.Outcome := Mock.returns [].

(** The five answers the tests queue for a first initialization. *)
Definition fresh_store : list Mock.Outcome := [ok; ok; ok; ok; ok].

(** The mock manager after that initialization. *)
Definition ready : State Mock.engine :=
  fst (initialize Mock.engine (Mock.fresh fresh_store Mock.undefined)).

(** The tracking row is already there. *)
Definition already_applied : State Mock.engine :=
  Mock.fresh [ok; ok; Mock.returns [[("version", VText "001_initial")]]]
    Mock.undefined.

(** The pragma, the tracking table and the version check go through,
    the migration batch throws. *)
Definition batch_fails : State Mock.engine :=
  Mock.fresh [ok; ok; ok; Mock.throws "disk I/O error"] Mock.undefined.

(** A mock connection whose version check finds nothing and whose
    next statement throws. *)
Definition batch_throws : State Mock.engine :=
  mkState (E := Mock.engine) (Some tt)
    (Mock.mkWorld [Mock.returns []; Mock.throws "disk I/O error"]
       Mock.undefined 1756339200000%Z)
    [] [].

(** A manager over an empty store. *)
Definition empty_store : State Sqlite.engine :=
  mkState (E := Sqlite.engine) None (Sqlite.mkStore [] [] 1756339200000%Z)
    [] [].

(** A store whose tracking table exists and is empty. *)
Definition untracked : State Sqlite.engine :=
  mkState (E := Sqlite.engine) (Some dbName)
    (Sqlite.mkStore [Sqlite.mkSchemaRow "table" "migrations"] []
       1756339200000%Z)
    [] [].

(** A store on which every statement of the initial migration has
    been run, and the version recorded. *)
Definition tracked : State Sqlite.engine :=
  mkState (E := Sqlite.engine) (Some dbName)
    (Sqlite.mkStore Sqlite.migration001_schema
       [("001_initial", 1756339200003%Z)] 1756339200004%Z)
    [] [].

(** A store with one of the engine's own tables and with a table of a
    collaborator whose name begins like one. *)
Definition lookalike : State Sqlite.engine :=
  mkState (E := Sqlite.engine) (Some dbName)
    (Sqlite.mkStore
       [Sqlite.mkSchemaRow "table" "migrations";
        Sqlite.mkSchemaRow "table" "sqlite_sequence";
        Sqlite.mkSchemaRow "table" "exams";
        Sqlite.mkSchemaRow "index" "idx_questions_type";
        Sqlite.mkSchemaRow "table" "sqlite3_backup_log"]
       [("001_initial", 1756339200000%Z)] 1756339260000%Z)
    [] [].

End Scenario.

(** ** The class and its one instance *)

(** [DatabaseManager.instance] and the manager objects made so far.
    An object is known by its reference, the index at which it was
    allocated; the one field that varies is [db] (the constructor is
    empty, [dbName] is read-only). *)
Record Class (E : Engine) : Type := mkClass {
  instance : option nat;
  objects : list (option (Conn E))
}.

Arguments instance {E} _.
Arguments objects {E} _.
Arguments mkClass {E} _ _.

(** [new DatabaseManager()]: a fresh object whose [db] is null. *)
Definition new_DatabaseManager {E} (k : Class E) : Class E * nat :=
  (mkClass (instance k) (objects k ++ [None])%list, List.length (objects k)).

(** [DatabaseManager.getInstance()] *)
Definition getInstance {E} (k : Class E) : Class E * nat :=
  match instance k with
  | Some r => (k, r)
  | None =>
      let (k', r) := new_DatabaseManager k in
      (mkClass (Some r) (objects k'), r)
  end.

(** [(DatabaseManager as any).instance = undefined], as the tests do
    before each case. *)
Definition reset_instance {E} (k : Class E) : Class E :=
  mkClass None (objects k).

(** The static field, when set, refers to an allocated object. *)
Definition instance_allocated {E} (k : Class E) : Prop :=
  forall r, instance k = Some r -> r < List.length (objects k).

(** ** Vocabulary of the further properties *)

(** The engine calls of an initialization after [open], in the order
    of the source. *)
Definition initialize_calls {E : Engine} (c : Conn E) (t : Z)
  : list (Event (Conn E)) :=
  [EvExecute c sql_pragma_foreign_keys None;
   EvExecute c sql_create_migrations None;
   EvExecute c sql_select_version (Some [VText "001_initial"]);
   EvExecute c getMigration001 None;
   EvExecute c sql_insert_migration (Some [VText "001_initial"; VInt t])].

(** The [?] marks of a statement text. *)
Fixpoint placeholders (sql : string) : nat :=
  match sql with
  | EmptyString => 0
  | String c sql' =>
      (if Ascii.eqb c "?" then 1 else 0) + placeholders sql'
  end.

(** An [execute] call that binds one value per [?]. *)
Definition well_bound {C} (e : Event C) : Prop :=
  match e with
  | EvExecute _ sql (Some params) => placeholders sql = List.length params
  | EvExecute _ sql None => placeholders sql = 0
  | _ => True
  end.

(** Statements run one after the other on one connection, up to the
    first that throws. *)
Fixpoint execute_all (E : Engine) (c : Conn E)
    (statements : list (string * option (list SqlValue))) (w : World E)
  : World E * (JsError + unit) :=
  match statements with
  | [] => (w, inr tt)
  | (sql, params) :: rest =>
      match conn_execute E c sql params w with
      | (w', inl e) => (w', inl e)
      | (w', inr _) => execute_all E c rest w'
      end
  end.

(** The four statements of a fixture load. *)
Definition fixture_statements (t : Z)
  : list (string * option (list SqlValue)) :=
  [(sql_insert_exam, Some (exam_params t));
   (sql_insert_topic, Some topic_params);
   (sql_insert_question, Some (question_params t));
   (sql_insert_content_pack, Some (content_pack_params t))].

(** The rows of a result, whichever shape it has. *)
Definition rows_list (r : Rows) : list Row :=
  match r with
  | RowsArray items => items
  | RowsSet n item => map item (seq 0 n)
  end.

(** What [getAllTables] makes of an answer: the [name] of each row, in
    row order; nothing for [undefined] or an answer without [rows]. *)
Definition table_names (result : option QueryResult)
  : list (option SqlValue) :=
  match result with
  | Some q =>
      match rows q with
      | Some r => map (fun row => row_field row "name") (rows_list r)
      | None => []
      end
  | None => []
  end.


(** A table of the given name, spelled exactly so, is in the schema. *)
Definition has_table (schema : list Sqlite.SchemaRow) (n : string) : bool :=
  existsb (fun r => Sqlite.is_table r && String.eqb (Sqlite.obj_name r) n)
    schema.


(** Concrete managers of the further properties. *)
Module Coverage.

(** The store cannot be opened. *)
Definition cannot_open : Engine :=
  mkEngine unit Mock.World
    (fun _ w => (w, inl (Error "unable to open database file")))
    Mock.execute
    (fun _ w => w)
    Mock.clock.

Definition closed_store : State cannot_open :=
  mkState (E := cannot_open) None
    (Mock.mkWorld [] Mock.undefined 1756339200000%Z) [] [].

(** A live mock connection with the given queued answers. *)
Definition live (script : list Mock.Outcome) (default : Mock.Outcome)
  : State Mock.engine :=
  mkState (E := Mock.engine) (Some tt)
    (Mock.mkWorld script default 1756339200000%Z) [] [].

(** A live connection to a store with a table [exams], an index named
    [topics] and a table [Questions] spelled with a capital. *)
Definition mixed_store : State Sqlite.engine :=
  mkState (E := Sqlite.engine) (Some dbName)
    (Sqlite.mkStore
       [Sqlite.mkSchemaRow "table" "exams";
        Sqlite.mkSchemaRow "index" "topics";
        Sqlite.mkSchemaRow "table" "Questions"]
       [] 1756339200000%Z)
    [] [].

(** A manager started afresh over the store of [Scenario.tracked]. *)
Definition restarted : State Sqlite.engine :=
  mkState (E := Sqlite.engine) None (world Scenario.tracked) [] [].

(** A live connection to a store without the tracking table. *)
Definition no_tracking_table : State Sqlite.engine :=
  mkState (E := Sqlite.engine) (Some dbName)
    (Sqlite.mkStore [] [] 1756339200000%Z) [] [].

(** The rows the unit test hands to [getAllTables]. *)
Definition test_rows : list Row :=
  [[("name", VText "exams")]; [("name", VText "topics")];
   [("name", VText "questions")]; [("name", VText "attempts")]].

(** No class state yet: nothing allocated, the static field unset. *)
Definition no_instance : Class Mock.engine := mkClass None [].

End Coverage.

(** * Properties *)

(** From here on [++] joins lists. *)
Local Open Scope list_scope.

(** ** Running a method by hand *)

(** Unfolds the monad and the record projections; what is left are the
    engine's answers. *)
Ltac unfold_monad :=
  cbv beta iota delta
    [bind ret throw try_catch this_db this_db_field set_db js_open db_execute
     db_close now console_log console_error for_of fst snd
     db world trace console].

(** Settles which statement of the manager a text sent to the SQL
    engine is. *)
Ltac dispatch :=
  cbv beta zeta delta [Sqlite.execute];
  repeat
    match goal with
    | |- context [String.eqb (Sqlite.first_statement ?a) ?b] =>
        let v := eval vm_compute in (String.eqb (Sqlite.first_statement a) b) in
        change (String.eqb (Sqlite.first_statement a) b) with v
    end;
  cbv beta iota.

Section Issued.

Variable E : Engine.

Lemma issued_app (s s' : State E) l :
  trace s' = trace s ++ l -> issued s s' = l.
Proof.
  intro H. unfold issued. rewrite H.
  rewrite skipn_app, skipn_all, Nat.sub_diag. reflexivity.
Qed.

Lemma issued_mk (s : State E) d w l co :
  issued s (mkState d w (trace s ++ l) co) = l.
Proof. apply issued_app. reflexivity. Qed.

Lemma issued_refl (s : State E) : issued s s = [].
Proof. unfold issued. apply skipn_all. Qed.

End Issued.

(** ** The handle is only written by [set_db] *)

Section Frame.

Variable E : Engine.

Lemma preserves_ret A (a : A) : preserves_db (ret E a).
Proof. intro s. reflexivity. Qed.

Lemma preserves_throw A (e : JsError) : preserves_db (throw E (A := A) e).
Proof. intro s. reflexivity. Qed.

Lemma preserves_bind A B (m : M E A) (k : A -> M E B) :
  preserves_db m -> (forall a, preserves_db (k a)) -> preserves_db (bind E m k).
Proof.
  intros Hm Hk s. unfold bind.
  specialize (Hm s). destruct (m s) as [s' [e | a]]; simpl in *.
  - exact Hm.
  - rewrite Hk. exact Hm.
Qed.

Lemma preserves_try_catch A (m : M E A) (h : JsError -> M E A) :
  preserves_db m -> (forall e, preserves_db (h e)) ->
  preserves_db (try_catch E m h).
Proof.
  intros Hm Hh s. unfold try_catch.
  specialize (Hm s). destruct (m s) as [s' [e | a]]; simpl in *.
  - rewrite Hh. exact Hm.
  - exact Hm.
Qed.

Lemma preserves_this_db_field : preserves_db (this_db_field E).
Proof. intro s. reflexivity. Qed.

Lemma preserves_this_db : preserves_db (this_db E).
Proof.
  intro s. unfold this_db, bind, this_db_field.
  destruct (db s) eqn:Hdb; cbn; congruence.
Qed.

Lemma preserves_js_open name : preserves_db (js_open E name).
Proof. intro s. unfold js_open. destruct (open E name (world s)). reflexivity. Qed.

Lemma preserves_db_execute c sql params :
  preserves_db (db_execute E c sql params).
Proof.
  intro s. unfold db_execute.
  destruct (conn_execute E c sql params (world s)). reflexivity.
Qed.

Lemma preserves_db_close c : preserves_db (db_close E c).
Proof. intro s. reflexivity. Qed.

Lemma preserves_now : preserves_db (now E).
Proof. intro s. reflexivity. Qed.

Lemma preserves_console_log text : preserves_db (console_log E text).
Proof. intro s. reflexivity. Qed.

Lemma preserves_console_error text e : preserves_db (console_error E text e).
Proof. intro s. reflexivity. Qed.

Lemma preserves_for_of A (l : list A) (body : A -> M E unit) :
  (forall x, preserves_db (body x)) -> preserves_db (for_of E l body).
Proof.
  intro Hbody. induction l as [| x l IH]; simpl.
  - apply preserves_ret.
  - apply preserves_bind; auto.
Qed.

End Frame.

Create HintDb frame.

#[export] Hint Resolve preserves_ret preserves_throw preserves_this_db_field
  preserves_this_db preserves_js_open preserves_db_execute preserves_db_close
  preserves_now preserves_console_log preserves_console_error : frame.

(** Walks down a method body: sequencing, handlers, loops and branches
    first, then the primitives. *)
Ltac frame :=
  repeat first
    [ apply preserves_bind; [| intro]
    | apply preserves_try_catch; [| intro]
    | apply preserves_for_of; intro
    | match goal with
      | |- preserves_db (match ?x with _ => _ end) => destruct x
      end
    | solve [auto with frame] ].

Section FrameMethods.

Variable E : Engine.

Lemma runMigration_preserves_db version migration :
  preserves_db (runMigration E version migration).
Proof. unfold runMigration. frame. Qed.

Lemma runMigrations_preserves_db : preserves_db (runMigrations E).
Proof. unfold runMigrations. frame. Qed.

Lemma getConnection_preserves_db : preserves_db (getConnection E).
Proof. unfold getConnection. frame. Qed.

Lemma loadFixtures_preserves_db : preserves_db (loadFixtures E).
Proof. unfold loadFixtures. frame. Qed.

Lemma tableExists_preserves_db tableName :
  preserves_db (tableExists E tableName).
Proof. unfold tableExists. frame. Qed.

Lemma getAllTables_preserves_db : preserves_db (getAllTables E).
Proof. unfold getAllTables. frame. Qed.

End FrameMethods.

(** ** Initialization and release *)

Section Lifecycle.

Variable E : Engine.

(** The early return: a set handle counts as already initialized. *)
Lemma initialize_live (s : State E) c :
  db s = Some c -> initialize E s = (s, inr tt).
Proof.
  intro Hdb. unfold initialize, bind, this_db_field. rewrite Hdb. reflexivity.
Qed.

(** When [open] throws the handle was never assigned: it stays null,
    the error is rethrown, and [open] is the only engine call. *)
Lemma initialize_open_failure (s : State E) w e :
  db s = None -> open E dbName (world s) = (w, inl e) ->
  exists s', initialize E s = (s', inl e) /\ db s' = None /\
             trace s' = trace s ++ [EvOpen dbName].
Proof.
  intros Hdb Hopen.
  unfold initialize. unfold bind at 1. unfold this_db_field. rewrite Hdb.
  unfold try_catch. unfold bind at 1. unfold js_open. rewrite Hopen.
  cbn. eexists. split; [reflexivity |]. cbn. auto.
Qed.

(** Once [open] has returned, the handle holds the connection at the
    end of [initialize], whether the rest succeeds or throws. *)
Lemma initialize_opened (s : State E) w c :
  db s = None -> open E dbName (world s) = (w, inr c) ->
  db (fst (initialize E s)) = Some c.
Proof.
  intros Hdb Hopen.
  unfold initialize. unfold bind at 1. unfold this_db_field. rewrite Hdb.
  unfold try_catch. unfold bind at 1. unfold js_open. rewrite Hopen.
  unfold bind at 1. unfold set_db. cbn [db world trace console].
  match goal with
  | |- context [bind E ?m ?k ?s0] =>
      assert (P : preserves_db (bind E m k)) by frame;
      specialize (P s0); destruct (bind E m k s0) as [s' [e | a]]
  end; cbn in *; exact P.
Qed.

(** A successful [initialize] ends with a live connection. *)
Lemma initialize_success_live (s s1 : State E) :
  initialize E s = (s1, inr tt) -> exists c, db s1 = Some c.
Proof.
  intro Hinit. destruct (db s) as [c |] eqn:Hdb.
  - rewrite (initialize_live s c Hdb) in Hinit. inversion Hinit; subst. eauto.
  - destruct (open E dbName (world s)) as [w [e | c]] eqn:Hopen.
    + destruct (initialize_open_failure s w e Hdb Hopen) as (s' & Hs' & _).
      congruence.
    + exists c. pose proof (initialize_opened s w c Hdb Hopen) as H.
      rewrite Hinit in H. exact H.
Qed.

(** A failure after the open step leaves the handle set, so the next
    [initialize] takes the early return. *)
Lemma initialize_failure_after_open (s s' : State E) w c e :
  db s = None -> open E dbName (world s) = (w, inr c) ->
  initialize E s = (s', inl e) ->
  db s' = Some c /\ initialize E s' = (s', inr tt).
Proof.
  intros Hdb Hopen Hinit.
  assert (Hc : db s' = Some c).
  { pose proof (initialize_opened s w c Hdb Hopen) as H.
    rewrite Hinit in H. exact H. }
  split; [exact Hc | exact (initialize_live s' c Hc)].
Qed.

Lemma initialize_twice (s s1 : State E) :
  initialize E s = (s1, inr tt) -> initialize E s1 = (s1, inr tt).
Proof.
  intro Hinit. destruct (initialize_success_live s s1 Hinit) as [c Hc].
  exact (initialize_live s1 c Hc).
Qed.

(** [close] on a live connection: one release, handle null, one line
    on the console. *)
Lemma close_live (s : State E) c :
  db s = Some c ->
  close E s =
    (mkState None (conn_close E c (world s)) (trace s ++ [EvClose c])
       (console s ++ [ConsoleLog "Database connection closed"]),
     inr tt).
Proof.
  intro Hdb. destruct s as [d w t co]. cbn in Hdb. subst d.
  unfold close. unfold_monad. reflexivity.
Qed.

(** [close] on a null handle does nothing. *)
Lemma close_null (s : State E) : db s = None -> close E s = (s, inr tt).
Proof.
  intro Hdb. destruct s as [d w t co]. cbn in Hdb. subst d. reflexivity.
Qed.


(** C4.  With a live connection [initialize] returns at once: the
    manager, the engine and both logs are as before, and no engine
    call is issued. *)
Theorem initialize_idempotent (s : State E) (c : Conn E) :
  db s = Some c ->
  initialize E s = (s, inr tt) /\ issued s (fst (initialize E s)) = [].
Proof.
  intro Hdb. rewrite (initialize_live s c Hdb).
  split; [reflexivity | apply issued_refl].
Qed.

(** C5.  Without a live connection the three query methods throw and
    touch nothing; [getConnection] throws the fixed message. *)
Theorem not_initialized_errors (s : State E) (tableName : string) :
  db s = None ->
  getConnection E s =
    (s, inl (Error "Database not initialized. Call initialize() first.")) /\
  tableExists E tableName s =
    (s, inl (Error "Database connection not available")) /\
  getAllTables E s = (s, inl (Error "Database connection not available")).
Proof.
  intro Hdb. destruct s as [d w t co]. cbn in Hdb. subst d.
  repeat split.
Qed.


(** C9.  [getConnection], [tableExists], [getAllTables],
    [loadFixtures], [runMigrations] and [runMigration] leave the handle
    as they found it, however they end; [close] leaves it null; a
    successful [initialize] leaves it set. *)
Theorem handle_written_by_initialize_and_close_only (s : State E)
    (tableName version migration : string) :
  db (fst (getConnection E s)) = db s /\
  db (fst (tableExists E tableName s)) = db s /\
  db (fst (getAllTables E s)) = db s /\
  db (fst (loadFixtures E s)) = db s /\
  db (fst (runMigrations E s)) = db s /\
  db (fst (runMigration E version migration s)) = db s /\
  db (fst (close E s)) = None /\
  match initialize E s with
  | (s1, inr _) => exists c, db s1 = Some c
  | (_, inl _) => True
  end.
Proof.
  split; [apply getConnection_preserves_db |].
  split; [apply tableExists_preserves_db |].
  split; [apply getAllTables_preserves_db |].
  split; [apply loadFixtures_preserves_db |].
  split; [apply runMigrations_preserves_db |].
  split; [apply runMigration_preserves_db |].
  split.
  - destruct (db s) as [c |] eqn:Hdb.
    + rewrite (close_live s c Hdb). reflexivity.
    + rewrite (close_null s Hdb). exact Hdb.
  - destruct (initialize E s) as [s1 [e | []]] eqn:Hinit; [exact I |].
    exact (initialize_success_live s s1 Hinit).
Qed.

(** C10.  Without a live connection [loadFixtures] throws
    "Database connection not available" and issues no engine call. *)
Theorem loadFixtures_not_initialized (s : State E) :
  db s = None ->
  loadFixtures E s = (s, inl (Error "Database connection not available")) /\
  issued s (fst (loadFixtures E s)) = [].
Proof.
  intro Hdb. destruct s as [d w t co]. cbn in Hdb. subst d.
  split; [reflexivity | apply issued_refl].
Qed.

End Lifecycle.

Lemma initialize_idempotent_witness :
  initialize Mock.engine Scenario.ready = (Scenario.ready, inr tt) /\
  issued Scenario.ready (fst (initialize Mock.engine Scenario.ready)) = [].
Proof.
  apply (initialize_idempotent Mock.engine Scenario.ready tt). reflexivity.
Defined.

Lemma not_initialized_errors_witness :
  let s := Mock.fresh [] Mock.undefined in
  getConnection Mock.engine s =
    (s, inl (Error "Database not initialized. Call initialize() first.")) /\
  tableExists Mock.engine "exams" s =
    (s, inl (Error "Database connection not available")) /\
  getAllTables Mock.engine s =
    (s, inl (Error "Database connection not available")).
Proof.
  exact (not_initialized_errors Mock.engine (Mock.fresh [] Mock.undefined)
           "exams" eq_refl).
Defined.


Lemma loadFixtures_not_initialized_witness :
  let s := Mock.fresh [] Mock.undefined in
  loadFixtures Mock.engine s =
    (s, inl (Error "Database connection not available")) /\
  issued s (fst (loadFixtures Mock.engine s)) = [].
Proof.
  exact (loadFixtures_not_initialized Mock.engine
           (Mock.fresh [] Mock.undefined) eq_refl).
Defined.

(** C1.  A migration batch that throws fails [initialize] after the
    handle has been assigned: the handle then still holds the
    connection, and the retry returns at once as already initialized
    without opening, without the pragma, without migrating. *)
Theorem initialize_failure_keeps_handle :
  let s1 := fst (initialize Mock.engine Scenario.batch_fails) in
  snd (initialize Mock.engine Scenario.batch_fails)
    = inl (Error "disk I/O error") /\
  db s1 = Some tt /\
  initialize Mock.engine s1 = (s1, inr tt) /\
  issued s1 (fst (initialize Mock.engine s1)) = [].
Proof. vm_compute. repeat split. Qed.

(** ** Migrations *)

Section Migration.

Variable E : Engine.

(** The runs of [runMigration] on a live connection, by what the
    engine answers. *)
Lemma runMigration_applied (s : State E) c version migration w1 result :
  db s = Some c ->
  conn_execute E c sql_select_version (Some [VText version]) (world s)
    = (w1, inr result) ->
  has_rows result = true ->
  runMigration E version migration s =
    (mkState (Some c) w1
       (trace s ++ [EvExecute c sql_select_version (Some [VText version])])
       (console s ++
        [ConsoleLog ("Migration " ++ version ++ " already applied")%string]),
     inr tt).
Proof.
  intros Hdb Hcheck Hrows. destruct s as [d w t co]. cbn in Hdb, Hcheck.
  subst d. unfold runMigration. unfold_monad.
  rewrite Hcheck. rewrite Hrows. reflexivity.
Qed.

Lemma runMigration_batch_throws (s : State E) c version migration
    w1 result w2 e :
  db s = Some c ->
  conn_execute E c sql_select_version (Some [VText version]) (world s)
    = (w1, inr result) ->
  has_rows result = false ->
  conn_execute E c migration None w1 = (w2, inl e) ->
  runMigration E version migration s =
    (mkState (Some c) w2
       (trace s ++ [EvExecute c sql_select_version (Some [VText version]);
                    EvExecute c migration None])
       (console s ++
        [ConsoleLog ("Applying migration " ++ version ++ "...")%string;
         ConsoleError ("Failed to apply migration " ++ version ++ ":")%string
           e]),
     inl e).
Proof.
  intros Hdb Hcheck Hrows Hbatch. destruct s as [d w t co].
  cbn in Hdb, Hcheck. subst d. unfold runMigration. unfold_monad.
  rewrite Hcheck. rewrite Hrows. rewrite Hbatch.
  rewrite <- !app_assoc. reflexivity.
Qed.

Lemma runMigration_recorded (s : State E) c version migration
    w1 result w2 r2 w3 r3 :
  db s = Some c ->
  conn_execute E c sql_select_version (Some [VText version]) (world s)
    = (w1, inr result) ->
  has_rows result = false ->
  conn_execute E c migration None w1 = (w2, inr r2) ->
  conn_execute E c sql_insert_migration
    (Some [VText version; VInt (Date_now E w2)]) w2 = (w3, inr r3) ->
  runMigration E version migration s =
    (mkState (Some c) w3
       (trace s ++ [EvExecute c sql_select_version (Some [VText version]);
                    EvExecute c migration None;
                    EvExecute c sql_insert_migration
                      (Some [VText version; VInt (Date_now E w2)])])
       (console s ++
        [ConsoleLog ("Applying migration " ++ version ++ "...")%string;
         ConsoleLog
           ("Migration " ++ version ++ " applied successfully")%string]),
     inr tt).
Proof.
  intros Hdb Hcheck Hrows Hbatch Hins. destruct s as [d w t co].
  cbn in Hdb, Hcheck. subst d. unfold runMigration. unfold_monad.
  rewrite Hcheck. rewrite Hrows. rewrite Hbatch. rewrite Hins.
  rewrite <- !app_assoc. reflexivity.
Qed.

Lemma runMigration_insert_throws (s : State E) c version migration
    w1 result w2 r2 w3 e :
  db s = Some c ->
  conn_execute E c sql_select_version (Some [VText version]) (world s)
    = (w1, inr result) ->
  has_rows result = false ->
  conn_execute E c migration None w1 = (w2, inr r2) ->
  conn_execute E c sql_insert_migration
    (Some [VText version; VInt (Date_now E w2)]) w2 = (w3, inl e) ->
  runMigration E version migration s =
    (mkState (Some c) w3
       (trace s ++ [EvExecute c sql_select_version (Some [VText version]);
                    EvExecute c migration None;
                    EvExecute c sql_insert_migration
                      (Some [VText version; VInt (Date_now E w2)])])
       (console s ++
        [ConsoleLog ("Applying migration " ++ version ++ "...")%string;
         ConsoleError ("Failed to apply migration " ++ version ++ ":")%string
           e]),
     inl e).
Proof.
  intros Hdb Hcheck Hrows Hbatch Hins. destruct s as [d w t co].
  cbn in Hdb, Hcheck. subst d. unfold runMigration. unfold_monad.
  rewrite Hcheck. rewrite Hrows. rewrite Hbatch. rewrite Hins.
  rewrite <- !app_assoc. reflexivity.
Qed.

Lemma runMigration_check_throws (s : State E) c version migration w1 e :
  db s = Some c ->
  conn_execute E c sql_select_version (Some [VText version]) (world s)
    = (w1, inl e) ->
  runMigration E version migration s =
    (mkState (Some c) w1
       (trace s ++ [EvExecute c sql_select_version (Some [VText version])])
       (console s),
     inl e).
Proof.
  intros Hdb Hcheck. destruct s as [d w t co].
  cbn in Hdb, Hcheck. subst d. unfold runMigration. unfold_monad.
  rewrite Hcheck. reflexivity.
Qed.

Lemma runMigration_not_applied_issues_batch (s : State E) c version migration
    w1 result :
  db s = Some c ->
  conn_execute E c sql_select_version (Some [VText version]) (world s)
    = (w1, inr result) ->
  has_rows result = false ->
  In (EvExecute c migration None)
     (issued s (fst (runMigration E version migration s))).
Proof.
  intros Hdb Hcheck Hrows.
  destruct (conn_execute E c migration None w1) as [w2 [e | r2]] eqn:Hbatch.
  - rewrite (runMigration_batch_throws s c version migration w1 result w2 e)
      by assumption.
    cbn [fst]. rewrite issued_mk. simpl. auto.
  - destruct (conn_execute E c sql_insert_migration
                (Some [VText version; VInt (Date_now E w2)]) w2)
      as [w3 [e | r3]] eqn:Hins.
    + rewrite (runMigration_insert_throws s c version migration
                 w1 result w2 r2 w3 e) by assumption.
      cbn [fst]. rewrite issued_mk. simpl. auto.
    + rewrite (runMigration_recorded s c version migration
                 w1 result w2 r2 w3 r3) by assumption.
      cbn [fst]. rewrite issued_mk. simpl. auto.
Qed.

(** An initialization whose open, pragma and tracking-table steps
    return goes on with the one registered migration. *)
Lemma initialize_run (s : State E) w0 c wa ra wb rb :
  db s = None ->
  open E dbName (world s) = (w0, inr c) ->
  conn_execute E c sql_pragma_foreign_keys None w0 = (wa, inr ra) ->
  conn_execute E c sql_create_migrations None wa = (wb, inr rb) ->
  initialize E s =
    match
      runMigration E "001_initial" getMigration001
        (mkState (Some c) wb
           (trace s ++ [EvOpen dbName;
                        EvExecute c sql_pragma_foreign_keys None;
                        EvExecute c sql_create_migrations None])
           (console s ++
            [ConsoleLog
               ("Database " ++ dbName ++ " opened successfully")%string]))
    with
    | (s', inl e) =>
        (mkState (db s') (world s') (trace s')
           (console s' ++ [ConsoleError "Failed to initialize database:" e]),
         inl e)
    | (s', inr _) => (s', inr tt)
    end.
Proof.
  intros Hdb Hopen Hpragma Hcreate. destruct s as [d w t co].
  cbn in Hdb, Hopen. subst d.
  unfold initialize, runMigrations, migrations. unfold_monad.
  rewrite Hopen. cbv beta iota. rewrite Hpragma. cbv beta iota.
  rewrite Hcreate. cbv beta iota. rewrite <- !app_assoc. cbn [app fst snd].
  match goal with
  | |- context [runMigration E ?v ?m ?s0] =>
      destruct (runMigration E v m s0) as [s' [e | []]]
  end; reflexivity.
Qed.

(** C2.  [runMigration] is a two-state machine on the answer to the
    version check, which is how the tracking table is consulted.  When
    the check answers with at least one row (a tracking row for the
    version: APPLIED), the check is the only statement issued and the
    call returns.  When it answers with no row, with no [rows] or with
    [undefined] (NOT_APPLIED), the migration batch is issued in full
    and, once it has run, a tracking row for the version with the
    clock's current time is inserted and the call returns; an error of
    the batch or of the insertion ends the call with that error and
    with nothing issued after it. *)
Theorem runMigration_state_machine
    (s : State E) (c : Conn E) (version migration : string)
    (w1 : World E) (result : option QueryResult) :
  db s = Some c ->
  conn_execute E c sql_select_version (Some [VText version]) (world s)
    = (w1, inr result) ->
  let check := EvExecute c sql_select_version (Some [VText version]) in
  let batch := EvExecute c migration None in
  let insert t :=
    EvExecute c sql_insert_migration (Some [VText version; VInt t]) in
  let s' := fst (runMigration E version migration s) in
  let outcome := snd (runMigration E version migration s) in
  let applied :=
    match result with
    | Some (mkQueryResult (Some (RowsArray (_ :: _)))) => true
    | Some (mkQueryResult (Some (RowsSet (S _) _))) => true
    | _ => false
    end in
  if applied then
    issued s s' = [check] /\ outcome = inr tt /\ world s' = w1
  else
    match conn_execute E c migration None w1 with
    | (w2, inl e) =>
        issued s s' = [check; batch] /\ outcome = inl e /\ world s' = w2
    | (w2, inr _) =>
        issued s s' = [check; batch; insert (Date_now E w2)] /\
        match
          conn_execute E c sql_insert_migration
            (Some [VText version; VInt (Date_now E w2)]) w2
        with
        | (w3, inl e) => outcome = inl e /\ world s' = w3
        | (w3, inr _) => outcome = inr tt /\ world s' = w3
        end
    end.
Proof.
  intros Hdb Hcheck check batch insert s' outcome applied.
  subst s' outcome applied.
  assert (Hrow : forall result',
            result = result' -> has_rows result' = true ->
            issued s (fst (runMigration E version migration s)) = [check] /\
            snd (runMigration E version migration s) = inr tt /\
            world (fst (runMigration E version migration s)) = w1).
  { intros result' -> Hrows.
    rewrite (runMigration_applied s c version migration w1 result')
      by assumption.
    cbn [fst snd world]. rewrite issued_mk. auto. }
  destruct result as [[[[[| row items] | [| n] item] |]] |];
    try (apply (Hrow _ eq_refl); reflexivity);
    clear Hrow;
    match type of Hcheck with
    | _ = (_, inr ?r) => assert (Hrows : has_rows r = false) by reflexivity
    end;
    cbv beta iota;
    (destruct (conn_execute E c migration None w1) as [w2 [e | r2]] eqn:Hbatch;
     [ rewrite (runMigration_batch_throws s c version migration w1 _ w2 e
                  Hdb Hcheck Hrows Hbatch);
       cbn [fst snd world]; rewrite issued_mk; auto
     | destruct (conn_execute E c sql_insert_migration
                   (Some [VText version; VInt (Date_now E w2)]) w2)
         as [w3 [e | r3]] eqn:Hins;
       [ rewrite (runMigration_insert_throws s c version migration
                    w1 _ w2 r2 w3 e Hdb Hcheck Hrows Hbatch Hins)
       | rewrite (runMigration_recorded s c version migration
                    w1 _ w2 r2 w3 r3 Hdb Hcheck Hrows Hbatch Hins) ];
       cbn [fst snd world]; rewrite issued_mk; auto ]).
Qed.

(** C3.  When the batch of the initial migration throws, the error
    reaches the caller of [initialize] and no insertion into the
    tracking table is issued: the version stays unrecorded, and
    [runMigration], were it called again on that manager and its check
    still found no row, would issue the batch again.  It is not called
    again: the failed [initialize] has left the connection in the
    handle, so the next [initialize] returns at once and issues
    nothing.  The version is not retried on the next initialization
    attempt. *)
Theorem batch_failure_is_not_retried
    (s : State E) (c : Conn E) (w0 wa wb wc w2 : World E)
    (ra rb rc : option QueryResult) (e : JsError) :
  db s = None ->
  open E dbName (world s) = (w0, inr c) ->
  conn_execute E c sql_pragma_foreign_keys None w0 = (wa, inr ra) ->
  conn_execute E c sql_create_migrations None wa = (wb, inr rb) ->
  conn_execute E c sql_select_version (Some [VText "001_initial"]) wb
    = (wc, inr rc) ->
  has_rows rc = false ->
  conn_execute E c getMigration001 None wc = (w2, inl e) ->
  let s1 := fst (initialize E s) in
  let s2 := fst (initialize E s1) in
  snd (initialize E s) = inl e /\
  issued s s1 =
    [EvOpen dbName;
     EvExecute c sql_pragma_foreign_keys None;
     EvExecute c sql_create_migrations None;
     EvExecute c sql_select_version (Some [VText "001_initial"]);
     EvExecute c getMigration001 None] /\
  (forall c' params,
     ~ In (EvExecute c' sql_insert_migration params) (issued s s1)) /\
  world s1 = w2 /\
  db s1 = Some c /\
  (forall w3 r3,
     conn_execute E c sql_select_version (Some [VText "001_initial"]) w2
       = (w3, inr r3) ->
     has_rows r3 = false ->
     In (EvExecute c getMigration001 None)
        (issued s1 (fst (runMigration E "001_initial" getMigration001 s1)))) /\
  snd (initialize E s1) = inr tt /\
  s2 = s1 /\
  issued s1 s2 = [].
Proof.
  intros Hdb Hopen Hpragma Hcreate Hcheck Hrows Hbatch s1 s2. subst s2 s1.
  rewrite (initialize_run s w0 c wa ra wb rb) by assumption.
  match goal with
  | |- context [runMigration E ?v ?m ?s0] =>
      rewrite (runMigration_batch_throws s0 c v m wc rc w2 e)
        by (try reflexivity; assumption)
  end.
  cbn [fst snd world trace db console].
  match goal with
  | |- context [initialize E ?s0] =>
      rewrite (initialize_live E s0 c eq_refl); set (s1 := s0)
  end.
  cbn [fst snd]. unfold s1 at 1 2. rewrite <- app_assoc, issued_mk.
  cbn [app]. rewrite issued_refl.
  repeat split.
  - intros c' params H.
    repeat (destruct H as [H | H]; [discriminate H |]). destruct H.
  - intros w3 r3 Hcheck' Hrows'.
    exact (runMigration_not_applied_issues_batch s1 c "001_initial"
             getMigration001 w3 r3 eq_refl Hcheck' Hrows').
Qed.

End Migration.

Lemma runMigration_state_machine_witness :
  (let s := Scenario.tracked in
   let s' := fst (runMigration Sqlite.engine "001_initial" getMigration001 s) in
   issued s s' =
     [EvExecute dbName sql_select_version (Some [VText "001_initial"])] /\
   snd (runMigration Sqlite.engine "001_initial" getMigration001 s) = inr tt /\
   world s' =
     Sqlite.mkStore Sqlite.migration001_schema
       [("001_initial", 1756339200003%Z)] 1756339200005%Z) /\
  (let s := Scenario.untracked in
   let s' := fst (runMigration Sqlite.engine "001_initial" getMigration001 s) in
   issued s s' =
     [EvExecute dbName sql_select_version (Some [VText "001_initial"]);
      EvExecute dbName getMigration001 None;
      EvExecute dbName sql_insert_migration
        (Some [VText "001_initial"; VInt 1756339200002%Z])] /\
   snd (runMigration Sqlite.engine "001_initial" getMigration001 s) = inr tt /\
   world s' =
     Sqlite.mkStore
       [Sqlite.mkSchemaRow "table" "migrations";
        Sqlite.mkSchemaRow "table" "exams"]
       [("001_initial", 1756339200002%Z)] 1756339200003%Z).
Proof.
  split.
  - exact (runMigration_state_machine Sqlite.engine Scenario.tracked dbName
             "001_initial" getMigration001
             (Sqlite.tick (world Scenario.tracked))
             (Sqlite.result_set "version" ["001_initial"])
             eq_refl eq_refl).
  - exact (runMigration_state_machine Sqlite.engine Scenario.untracked dbName
             "001_initial" getMigration001
             (Sqlite.tick (world Scenario.untracked))
             (Sqlite.result_set "version" [])
             eq_refl eq_refl).
Defined.

Example runMigration_applied_example :
  let s := Scenario.tracked in
  let s' := fst (runMigration Sqlite.engine "001_initial" getMigration001 s) in
  snd (runMigration Sqlite.engine "001_initial" getMigration001 s) = inr tt /\
  issued s s' =
    [EvExecute dbName sql_select_version (Some [VText "001_initial"])] /\
  Sqlite.tracking (world s') = Sqlite.tracking (world s).
Proof. vm_compute. repeat split. Qed.

Example runMigration_not_applied_example :
  let s := Scenario.untracked in
  let s' := fst (runMigration Sqlite.engine "001_initial" getMigration001 s) in
  snd (runMigration Sqlite.engine "001_initial" getMigration001 s) = inr tt /\
  map event_sql (issued s s') =
    [sql_select_version; getMigration001; sql_insert_migration] /\
  Sqlite.tracking (world s') = [("001_initial", 1756339200002%Z)].
Proof. vm_compute. repeat split. Qed.

Lemma batch_failure_is_not_retried_witness :
  let s := Scenario.batch_fails in
  let s1 := fst (initialize Mock.engine s) in
  let s2 := fst (initialize Mock.engine s1) in
  snd (initialize Mock.engine s) = inl (Error "disk I/O error") /\
  issued s s1 =
    [EvOpen dbName;
     EvExecute tt sql_pragma_foreign_keys None;
     EvExecute tt sql_create_migrations None;
     EvExecute tt sql_select_version (Some [VText "001_initial"]);
     EvExecute tt getMigration001 None] /\
  (forall c' params,
     ~ In (EvExecute c' sql_insert_migration params) (issued s s1)) /\
  world s1 = Mock.mkWorld [] Mock.undefined 1756339200000%Z /\
  db s1 = Some tt /\
  (forall w3 r3,
     Mock.execute tt sql_select_version (Some [VText "001_initial"])
       (Mock.mkWorld [] Mock.undefined 1756339200000%Z) = (w3, inr r3) ->
     has_rows r3 = false ->
     In (EvExecute tt getMigration001 None)
        (issued s1
           (fst (runMigration Mock.engine "001_initial" getMigration001 s1)))) /\
  snd (initialize Mock.engine s1) = inr tt /\
  s2 = s1 /\
  issued s1 s2 = [].
Proof.
  pose (w := fun script => Mock.mkWorld script Mock.undefined 1756339200000%Z).
  exact (batch_failure_is_not_retried Mock.engine Scenario.batch_fails tt
           (w [Scenario.ok; Scenario.ok; Scenario.ok;
               Mock.throws "disk I/O error"])
           (w [Scenario.ok; Scenario.ok; Mock.throws "disk I/O error"])
           (w [Scenario.ok; Mock.throws "disk I/O error"])
           (w [Mock.throws "disk I/O error"])
           (w [])
           (Some (mkQueryResult (Some (RowsArray []))))
           (Some (mkQueryResult (Some (RowsArray []))))
           (Some (mkQueryResult (Some (RowsArray []))))
           (Error "disk I/O error")
           eq_refl eq_refl eq_refl eq_refl eq_refl eq_refl eq_refl).
Defined.

(** ** The catalogue *)

Section PushNames.

(** The loop over a result set collects the names in index order. *)
Lemma push_names_map (item : nat -> Row) (count i : nat) acc :
  push_names item i count acc =
  acc ++ map (fun j => row_field (item j) "name") (seq i count).
Proof.
  revert i acc. induction count as [| count IH]; intros i acc; simpl.
  - now rewrite app_nil_r.
  - rewrite IH, <- app_assoc. reflexivity.
Qed.

Lemma map_nth_error_seq {A B} (f : option A -> B) (l : list A) :
  map (fun i => f (nth_error l i)) (seq 0 (List.length l)) =
  map (fun x => f (Some x)) l.
Proof.
  induction l as [| x l IH]; simpl.
  - reflexivity.
  - f_equal. rewrite <- seq_shift, map_map. exact IH.
Qed.

End PushNames.

Module SqliteFacts.
Import Sqlite.

(** [getAllTables] on the SQL engine. *)
Lemma execute_all_tables c (w : Store) :
  execute c sql_all_tables None w =
  (tick w, inr (result_set "name" (select_all_tables (schema w)))).
Proof. dispatch. reflexivity. Qed.

Lemma getAllTables_run (s : State engine) c :
  db s = Some c ->
  getAllTables engine s =
    (mkState (E := engine) (Some c) (tick (world s))
       (trace s ++ [EvExecute c sql_all_tables None]) (console s),
     inr (map (fun n => Some (VText n))
            (select_all_tables (schema (world s))))).
Proof.
  intro Hdb. destruct s as [d w t co]. cbn in Hdb. subst d.
  unfold getAllTables. unfold_monad.
  change (conn_execute engine c sql_all_tables None w)
    with (execute c sql_all_tables None w).
  rewrite execute_all_tables. cbn [result_set rows].
  rewrite push_names_map. cbn [app].
  f_equal. f_equal.
  rewrite (map_nth_error_seq
             (fun o => row_field
                         match o with
                         | Some v => [("name", VText v)]
                         | None => []
                         end "name")).
  reflexivity.
Qed.

(** Insertion keeps the elements and the order. *)
Lemma insert_sorted_perm x l : Permutation (x :: l) (insert_sorted x l).
Proof.
  induction l as [| y l IH]; simpl.
  - apply Permutation_refl.
  - destruct (String.leb x y).
    + apply Permutation_refl.
    + eapply perm_trans; [apply perm_swap |]. apply perm_skip. exact IH.
Qed.

Lemma order_by_perm l : Permutation l (order_by l).
Proof.
  induction l as [| x l IH]; simpl.
  - apply perm_nil.
  - eapply perm_trans; [apply perm_skip; exact IH |].
    apply insert_sorted_perm.
Qed.

Lemma insert_sorted_hd x y l :
  ascending y x -> HdRel ascending y l -> HdRel ascending y (insert_sorted x l).
Proof.
  intros Hyx Hl. destruct l as [| z l]; simpl.
  - constructor. exact Hyx.
  - destruct (String.leb x z); constructor.
    + exact Hyx.
    + inversion Hl; assumption.
Qed.

Lemma insert_sorted_sorted x l :
  Sorted ascending l -> Sorted ascending (insert_sorted x l).
Proof.
  induction 1 as [| y l Hl IH Hhd]; simpl.
  - repeat constructor.
  - destruct (String.leb x y) eqn:Hxy.
    + constructor; [constructor; assumption | constructor; exact Hxy].
    + constructor; [exact IH |].
      apply insert_sorted_hd; [| exact Hhd].
      destruct (String.leb_total x y) as [H | H]; [congruence | exact H].
Qed.

Lemma order_by_sorted l : Sorted ascending (order_by l).
Proof.
  induction l as [| x l IH]; simpl.
  - constructor.
  - apply insert_sorted_sorted. exact IH.
Qed.



(** The pattern ['sqlite_%']. *)
Lemma like_percent (s : list ascii) : like_chars ["%"%char] s = true.
Proof. induction s as [| a s IH]; [reflexivity | exact IH]. Qed.

Lemma like_sqlite (n : string) :
  like n "sqlite_%" = begins_with_sqlite n.
Proof.
  unfold like, begins_with_sqlite.
  destruct n as [| c1 [| c2 [| c3 [| c4 [| c5 [| c6 [| c7 n]]]]]]];
    cbn [list_ascii_of_string]; try reflexivity.
  1-6: cbn [like_chars list_ascii_of_string Ascii.eqb Bool.eqb];
       now rewrite ?andb_false_r.
  cbn [like_chars list_ascii_of_string Ascii.eqb Bool.eqb].
  pose proof (like_percent (list_ascii_of_string n)) as Hrest.
  cbn [like_chars Ascii.eqb Bool.eqb] in Hrest. rewrite Hrest.
  cbn [map string_of_list_ascii String.eqb].
  change (fold_case "s") with "s"%char. change (fold_case "q") with "q"%char.
  change (fold_case "l") with "l"%char. change (fold_case "i") with "i"%char.
  change (fold_case "t") with "t"%char. change (fold_case "e") with "e"%char.
  rewrite (Ascii.eqb_sym "s"), (Ascii.eqb_sym "q"), (Ascii.eqb_sym "l"),
    (Ascii.eqb_sym "i"), (Ascii.eqb_sym "t"), (Ascii.eqb_sym "e").
  reflexivity.
Qed.

(** Every name with the reserved prefix matches the pattern. *)
Lemma system_name_like (n : string) :
  is_system_name n = true -> like n "sqlite_%" = true.
Proof.
  rewrite like_sqlite. unfold is_system_name, begins_with_sqlite.
  destruct n as [| c1 [| c2 [| c3 [| c4 [| c5 [| c6 [| c7 n]]]]]]];
    cbn [String.prefix list_ascii_of_string];
    repeat match goal with
           | |- context [ascii_dec ?a ?b] =>
               destruct (ascii_dec a b); [subst |]; try discriminate
           end.
  all: try (intro H; exact H).
  intros _. reflexivity.
Qed.

Lemma select_all_tables_user_tables (schema : list SchemaRow) :
  no_lookalike schema -> select_all_tables schema = user_tables schema.
Proof.
  intro Hno. unfold select_all_tables, user_tables. f_equal. f_equal.
  apply filter_ext_in. intros r Hr.
  destruct (is_table r) eqn:Htable; [| reflexivity]. cbn [andb]. f_equal.
  destruct (like (obj_name r) "sqlite_%") eqn:Hlike.
  - symmetry. apply Hno; assumption.
  - destruct (is_system_name (obj_name r)) eqn:Hsys; [| reflexivity].
    rewrite (system_name_like _ Hsys) in Hlike. discriminate.
Qed.

Lemma in_select_all_tables (schema : list SchemaRow) (n : string) :
  In n (select_all_tables schema) <->
  exists r, In r schema /\ obj_name r = n /\ is_table r = true /\
            begins_with_sqlite n = false.
Proof.
  unfold select_all_tables. split.
  - intro H. apply (Permutation_in _ (Permutation_sym (order_by_perm _))) in H.
    apply in_map_iff in H. destruct H as (r & Hn & Hr).
    apply filter_In in Hr. destruct Hr as (Hr & Hp).
    apply andb_true_iff in Hp. destruct Hp as (Ht & Hl).
    exists r. subst n. rewrite <- like_sqlite.
    repeat split; try assumption. now apply negb_true_iff.
  - intros (r & Hr & Hn & Ht & Hb).
    apply (Permutation_in _ (order_by_perm _)).
    apply in_map_iff. exists r. split; [exact Hn |].
    apply filter_In. split; [exact Hr |].
    rewrite Ht, like_sqlite, Hn, Hb. reflexivity.
Qed.



(** Byte order is transitive, so neighbours in order are all in order. *)
Lemma ascii_compare_refl (a : ascii) : Ascii.compare a a = Eq.
Proof. unfold Ascii.compare. apply N.compare_refl. Qed.

Lemma ascii_compare_lt_trans (a b c : ascii) :
  Ascii.compare a b = Lt -> Ascii.compare b c = Lt -> Ascii.compare a c = Lt.
Proof.
  unfold Ascii.compare. rewrite !N.compare_lt_iff. apply N.lt_trans.
Qed.

Lemma ascending_trans (a b c : string) :
  ascending a b -> ascending b c -> ascending a c.
Proof.
  unfold ascending, String.leb. revert b c.
  induction a as [| x a IH]; intros [| y b] [| z c]; simpl;
    try congruence; try reflexivity.
  destruct (Ascii.compare x y) eqn:Hxy; try discriminate;
    destruct (Ascii.compare y z) eqn:Hyz; try discriminate.
  - apply Ascii.compare_eq_iff in Hxy, Hyz. subst.
    rewrite ascii_compare_refl. apply IH.
  - apply Ascii.compare_eq_iff in Hxy. subst. rewrite Hyz. reflexivity.
  - apply Ascii.compare_eq_iff in Hyz. subst. rewrite Hxy. reflexivity.
  - rewrite (ascii_compare_lt_trans x y z Hxy Hyz). reflexivity.
Qed.

Lemma order_by_strongly_sorted l : StronglySorted ascending (order_by l).
Proof.
  apply Sorted_StronglySorted.
  - intros a b c. apply ascending_trans.
  - apply order_by_sorted.
Qed.

Lemma select_all_tables_listed schema :
  Permutation (listed schema) (select_all_tables schema).
Proof.
  unfold select_all_tables, listed.
  rewrite (filter_ext
             (fun r => is_table r && negb (begins_with_sqlite (obj_name r)))
             (fun r => is_table r && negb (like (obj_name r) "sqlite_%"))).
  - apply order_by_perm.
  - intro r. now rewrite like_sqlite.
Qed.

(** The version check of [runMigration] has rows exactly when the
    tracking table holds the version. *)
Lemma execute_select_version c (v : string) (w : Store) :
  find_table (schema w) "migrations" = true ->
  exists r,
    execute c sql_select_version (Some [VText v]) w = (tick w, inr r) /\
    has_rows r = existsb (String.eqb v) (map fst (tracking w)).
Proof.
  intro Htable. dispatch. cbn [schema tick] in *. rewrite Htable.
  eexists. split; [reflexivity |].
  cbn [has_rows result_set rows rows_length tracking tick].
  induction (map fst (tracking w)) as [| x l IH]; [reflexivity |].
  cbn [filter existsb]. destruct (String.eqb v x); [reflexivity | exact IH].
Qed.

End SqliteFacts.

(** C7, as claimed, fails: a table whose name merely begins with
    "sqlite" is not the engine's own, yet [getAllTables] leaves it out. *)
Lemma getAllTables_omits_lookalike :
  Sqlite.user_tables (Sqlite.schema (world Scenario.lookalike))
    = ["exams"; "migrations"; "sqlite3_backup_log"] /\
  snd (getAllTables Sqlite.engine Scenario.lookalike)
    = inr (text_names ["exams"; "migrations"]) /\
  snd (getAllTables Sqlite.engine Scenario.lookalike)
    <> inr (text_names
              (Sqlite.user_tables (Sqlite.schema (world Scenario.lookalike)))).
Proof.
  split; [reflexivity |]. split; [reflexivity |].
  vm_compute. discriminate.
Qed.

(** C7, amended.  With a live connection [getAllTables] returns, in
    ascending byte order, the names of the tables whose name does not
    match ['sqlite_%'] (the letters of "sqlite" in either case and
    at least one more character).  No engine-internal table is among
    them, and on a store where no other table matches the pattern they
    are exactly the tables that are not the engine's own. *)
Theorem getAllTables_sorted_unmatched (s : State Sqlite.engine)
    (c : Conn Sqlite.engine) :
  db s = Some c ->
  exists names,
    snd (getAllTables Sqlite.engine s) = inr (text_names names) /\
    StronglySorted Sqlite.ascending names /\
    Permutation (Sqlite.listed (Sqlite.schema (world s))) names /\
    (forall n, In n names -> Sqlite.is_system_name n = false) /\
    (Sqlite.no_lookalike (Sqlite.schema (world s)) ->
     names = Sqlite.user_tables (Sqlite.schema (world s))).
Proof.
  intro Hdb. exists (Sqlite.select_all_tables (Sqlite.schema (world s))).
  rewrite (SqliteFacts.getAllTables_run s c Hdb). cbn [snd].
  split; [reflexivity |].
  split; [apply SqliteFacts.order_by_strongly_sorted |].
  split; [apply SqliteFacts.select_all_tables_listed |].
  split.
  - intros n Hn. apply SqliteFacts.in_select_all_tables in Hn.
    destruct Hn as (r & _ & _ & _ & Hb).
    destruct (Sqlite.is_system_name n) eqn:Hsys; [| reflexivity].
    apply SqliteFacts.system_name_like in Hsys.
    rewrite SqliteFacts.like_sqlite in Hsys. congruence.
  - apply SqliteFacts.select_all_tables_user_tables.
Qed.

Lemma getAllTables_sorted_unmatched_witness :
  exists names,
    snd (getAllTables Sqlite.engine Scenario.lookalike)
      = inr (text_names names) /\
    StronglySorted Sqlite.ascending names /\
    Permutation
      (Sqlite.listed (Sqlite.schema (world Scenario.lookalike))) names /\
    (forall n, In n names -> Sqlite.is_system_name n = false) /\
    (Sqlite.no_lookalike (Sqlite.schema (world Scenario.lookalike)) ->
     names = Sqlite.user_tables (Sqlite.schema (world Scenario.lookalike))).
Proof.
  apply (getAllTables_sorted_unmatched Scenario.lookalike dbName).
  reflexivity.
Defined.

(** ** Fixtures *)

(** The four insertions have four different texts. *)
Lemma sql_insert_exam_not_question : sql_insert_exam <> sql_insert_question.
Proof. intro H. apply String.eqb_eq in H. vm_compute in H. discriminate. Qed.

Lemma sql_insert_topic_not_question : sql_insert_topic <> sql_insert_question.
Proof. intro H. apply String.eqb_eq in H. vm_compute in H. discriminate. Qed.

Lemma sql_insert_content_pack_not_question :
  sql_insert_content_pack <> sql_insert_question.
Proof. intro H. apply String.eqb_eq in H. vm_compute in H. discriminate. Qed.

Lemma questionContent_parses :
  JSON.parse questionContent = Some expected_question.
Proof. vm_compute. reflexivity. Qed.

Lemma question_params_content t :
  exists blob,
    nth_error (question_params t) 5 = Some (VText blob) /\
    JSON.parse blob = Some expected_question.
Proof.
  exists questionContent. split; [reflexivity | exact questionContent_parses].
Qed.

Ltac not_question :=
  match goal with
  | H : EvExecute _ ?sql _ = EvExecute _ sql_insert_question _ |- _ =>
      exfalso; apply (f_equal event_sql) in H; cbn [event_sql] in H;
      first [ exact (sql_insert_exam_not_question H)
            | exact (sql_insert_topic_not_question H)
            | exact (sql_insert_content_pack_not_question H) ]
  end.

Lemma In_firstn {A} (x : A) (k : nat) (l : list A) :
  In x (firstn k l) -> In x l.
Proof.
  intro H. rewrite <- (firstn_skipn k l). apply in_or_app. now left.
Qed.

Section Fixtures.
Variable E : Engine.

Ltac next_execute c :=
  match goal with
  | |- context [conn_execute E c ?sql ?ps ?w0] =>
      destruct (conn_execute E c sql ps w0) as [? [? | ?]]; cbv beta iota
  end.

(** A load stops at the first statement that throws. *)
Lemma loadFixtures_issued (s : State E) c :
  db s = Some c ->
  exists k,
    issued s (fst (loadFixtures E s)) =
    firstn k (fixture_events c (Date_now E (world s))).
Proof.
  intro Hdb. destruct s as [d w t co]. cbn in Hdb. subst d.
  unfold loadFixtures. unfold_monad.
  set (s := mkState (Some c) w t co).
  do 4 (next_execute c;
        [ rewrite <- ?app_assoc; change t with (trace s);
          rewrite issued_mk;
          first [ now exists 1 | now exists 2 | now exists 3 | now exists 4 ]
        |]).
  rewrite <- ?app_assoc; change t with (trace s). rewrite issued_mk.
  now exists 4.
Qed.

(** C8.  Whenever [loadFixtures] issues the insertion of the fixture
    question, the sixth bound parameter ([content_json]) is a text
    that [JSON.parse] turns into the literal structure: the stem, the
    four choices A to D with only A correct, [correct] the one-element
    list of "A", and [shuffleChoices] true.  The insertion is the third
    statement issued once the exam and topic insertions have
    returned. *)
Theorem fixture_question_content (s : State E) (c : Conn E) :
  db s = Some c ->
  let s' := fst (loadFixtures E s) in
  (forall c' ps,
     In (EvExecute c' sql_insert_question ps) (issued s s') ->
     exists params blob,
       ps = Some params /\
       nth_error params 5 = Some (VText blob) /\
       JSON.parse blob = Some expected_question) /\
  (forall w1 r1 w2 r2,
     conn_execute E c sql_insert_exam
       (Some (exam_params (Date_now E (world s)))) (world s) = (w1, inr r1) ->
     conn_execute E c sql_insert_topic (Some topic_params) w1
       = (w2, inr r2) ->
     exists ps,
       nth_error (issued s s') 2 = Some (EvExecute c sql_insert_question ps)).
Proof.
  intros Hdb s'. subst s'. split.
  - intros c' ps Hin.
    destruct (loadFixtures_issued s c Hdb) as [k Hk]. rewrite Hk in Hin.
    apply In_firstn in Hin.
    destruct Hin as [H | [H | [H | [H | []]]]]; try not_question.
    apply (f_equal event_params) in H. cbn [event_params] in H. subst ps.
    destruct (question_params_content (Date_now E (world s)))
      as (blob & Hnth & Hparse).
    eauto.
  - intros w1 r1 w2 r2 Hexam Htopic.
    destruct s as [d w t co]. cbn in Hdb, Hexam. subst d.
    unfold loadFixtures. unfold_monad.
    set (s := mkState (Some c) w t co). rewrite Hexam. cbv beta iota.
    rewrite Htopic. cbv beta iota.
    next_execute c.
    + rewrite <- ?app_assoc; change t with (trace s). rewrite issued_mk.
      eexists. reflexivity.
    + next_execute c; rewrite <- ?app_assoc; change t with (trace s);
        rewrite issued_mk; eexists; reflexivity.
Qed.

End Fixtures.

Lemma fixture_question_content_witness :
  let s := Scenario.ready in
  let s' := fst (loadFixtures Mock.engine s) in
  (forall c' ps,
     In (EvExecute c' sql_insert_question ps) (issued s s') ->
     exists params blob,
       ps = Some params /\
       nth_error params 5 = Some (VText blob) /\
       JSON.parse blob = Some expected_question) /\
  (forall w1 r1 w2 r2,
     conn_execute Mock.engine tt sql_insert_exam
       (Some (exam_params (Date_now Mock.engine (world s)))) (world s)
       = (w1, inr r1) ->
     conn_execute Mock.engine tt sql_insert_topic (Some topic_params) w1
       = (w2, inr r2) ->
     exists ps,
       nth_error (issued s s') 2 = Some (EvExecute tt sql_insert_question ps)).
Proof.
  apply (fixture_question_content Mock.engine Scenario.ready tt). reflexivity.
Defined.

(** The serializer and the parser on other inputs. *)
Example json_examples :
  JSON.parse " [1, -20 ,true,null, [] ] " =
    Some (JSON.JArray
            [JSON.JNumber (JSON.of_Z 1); JSON.JNumber (JSON.of_Z (-20));
             JSON.JBool true; JSON.JNull; JSON.JArray []]) /\
  JSON.parse "[1,]" = None /\
  JSON.parse "tru" = None /\
  JSON.parse "{} x" = None /\
  (let tags :=
     JSON.JArray
       [JSON.JString "planning"; JSON.JString "stakeholder";
        JSON.JString "roles"] in
   String.length (JSON.stringify tags) = 34 /\
   JSON.parse (JSON.stringify tags) = Some tags) /\
  (let odd :=
     JSON.JString
       (String JSON.dquote
          (String JSON.backslash (String (ascii_of_nat 10) "a/b"))) in
   String.length (JSON.stringify odd) = 11 /\
   JSON.parse (JSON.stringify odd) = Some odd).
Proof. vm_compute. repeat split. Qed.

(** Numbers are doubles: literals are rounded to the nearest one, and
    a double is written with the fewest digits that give it back. *)
Example json_numbers :
  JSON.parse "01" = None /\
  JSON.parse "1." = None /\
  JSON.parse ".5" = None /\
  JSON.parse "1e" = None /\
  JSON.parse "-" = None /\
  JSON.parse "1.5" = Some (JSON.JNumber (JSON.Finite false 3 (-1))) /\
  JSON.parse "15e-1" = JSON.parse "1.5" /\
  JSON.parse "-0" = Some (JSON.JNumber (JSON.Finite true 0 0)) /\
  JSON.parse "9007199254740993" = JSON.parse "9007199254740992" /\
  JSON.parse "1e400" = Some (JSON.JNumber (JSON.Infinity false)) /\
  JSON.parse "1E-400" = Some (JSON.JNumber (JSON.Finite false 0 0)) /\
  option_map JSON.stringify (JSON.parse "0.1") = Some "0.1" /\
  option_map JSON.stringify (JSON.parse "0.30000000000000004")
    = Some "0.30000000000000004" /\
  option_map JSON.stringify (JSON.parse "100e19") = Some "1e+21" /\
  option_map JSON.stringify (JSON.parse "123456789012345678901")
    = Some "123456789012345680000" /\
  option_map JSON.stringify (JSON.parse "0.0000001") = Some "1e-7" /\
  option_map JSON.stringify (JSON.parse "-0") = Some "0" /\
  option_map JSON.stringify (JSON.parse "[1e999, 70e-2]")
    = Some "[null,0.7]".
Proof. vm_compute. repeat split. Qed.

(** Escapes of code points outside the basic plane come in pairs. *)
Example json_surrogate_pair :
  JSON.parse (String JSON.dquote
                (String JSON.backslash
                   ("ud83c" ++ String JSON.backslash
                                 ("udfaf" ++ String JSON.dquote EmptyString))))
  = Some (JSON.JString
            (String (ascii_of_nat 240)
               (String (ascii_of_nat 159)
                  (String (ascii_of_nat 142)
                     (String (ascii_of_nat 175) EmptyString))))).
Proof. vm_compute. reflexivity. Qed.

(** ** The unit tests, replayed *)

(** "opens database and runs migrations" *)
Example test_opens_and_migrates :
  trace Scenario.ready =
    [EvOpen dbName;
     EvExecute tt sql_pragma_foreign_keys None;
     EvExecute tt sql_create_migrations None;
     EvExecute tt sql_select_version (Some [VText "001_initial"]);
     EvExecute tt getMigration001 None;
     EvExecute tt sql_insert_migration
       (Some [VText "001_initial"; VInt 1756339200000%Z])] /\
  db Scenario.ready = Some tt.
Proof. vm_compute. split; reflexivity. Qed.

(** "does not re-run already applied migrations" *)
Example test_skips_applied_migration :
  initialize Mock.engine Scenario.already_applied =
    (mkState (E := Mock.engine) (Some tt)
       (Mock.mkWorld [] Mock.undefined 1756339200000%Z)
       [EvOpen dbName;
        EvExecute tt sql_pragma_foreign_keys None;
        EvExecute tt sql_create_migrations None;
        EvExecute tt sql_select_version (Some [VText "001_initial"])]
       [ConsoleLog "Database exam_engine.db opened successfully";
        ConsoleLog "Migration 001_initial already applied"],
     inr tt).
Proof. vm_compute. reflexivity. Qed.

(** "gets all table names": the rows come back in the order the engine
    gave them. *)
Example test_gets_all_table_names :
  let rows :=
    [[("name", VText "exams")]; [("name", VText "topics")];
     [("name", VText "questions")]; [("name", VText "attempts")]] in
  let s :=
    mkState (E := Mock.engine) (Some tt)
      (Mock.mkWorld [] (Mock.returns rows) 1756339200000%Z) [] [] in
  snd (getAllTables Mock.engine s) =
    inr (text_names ["exams"; "topics"; "questions"; "attempts"]).
Proof. vm_compute. reflexivity. Qed.

(** "checks if table exists" and "returns false for non-existent table" *)
Example test_table_exists :
  let s fallback :=
    mkState (E := Mock.engine) (Some tt)
      (Mock.mkWorld [] fallback 1756339200000%Z) [] [] in
  snd (tableExists Mock.engine "exams"
         (s (Mock.returns [[("name", VText "exams")]]))) = inr true /\
  snd (tableExists Mock.engine "non_existent" (s (Mock.returns [])))
    = inr false.
Proof. vm_compute. split; reflexivity. Qed.

(** "handles fixture loading errors gracefully" *)
Example test_fixture_error_propagates :
  let s :=
    mkState (E := Mock.engine) (Some tt)
      (Mock.mkWorld [] (Mock.throws "Database error") 1756339200000%Z)
      [] [] in
  snd (loadFixtures Mock.engine s) = inl (Error "Database error") /\
  List.length (trace (fst (loadFixtures Mock.engine s))) = 1.
Proof. vm_compute. split; reflexivity. Qed.

(** "creates all expected tables in migration": the text of the batch
    holds a [CREATE TABLE IF NOT EXISTS] for each of the ten tables. *)
Example test_migration_creates_expected_tables :
  forallb
    (fun table =>
       match
         String.index 0 ("CREATE TABLE IF NOT EXISTS " ++ table ++ " (")%string
           getMigration001
       with
       | Some _ => true
       | None => false
       end)
    Sqlite.migration001_tables = true /\
  Z.of_nat (String.length getMigration001) = 7069%Z.
Proof. vm_compute. split; reflexivity. Qed.

(** What the SQL engine runs of each text: the single statements
    whole, of the batch the first statement, which creates [exams]. *)
Example first_statements :
  Forall (fun sql => Sqlite.first_statement sql = sql)
    [sql_pragma_foreign_keys; sql_create_migrations; sql_select_version;
     sql_insert_migration; sql_insert_exam; sql_insert_topic;
     sql_insert_question; sql_insert_content_pack; sql_table_exists;
     sql_all_tables] /\
  String.length Sqlite.create_exams = 686 /\
  String.index 0 "CREATE TABLE" Sqlite.create_exams = Some 48 /\
  String.index 49 "CREATE TABLE" Sqlite.create_exams = None /\
  String.index 0 "CREATE TABLE IF NOT EXISTS exams (" Sqlite.create_exams
    = Some 48 /\
  String.index 0 "CREATE TABLE IF NOT EXISTS topics (" getMigration001
    = Some 735.
Proof. vm_compute. repeat split; repeat constructor. Qed.

(** On the SQL engine a first initialization of an empty store leaves
    one tracking row; of the batch only the first statement has run. *)
Example fresh_store_after_initialize :
  let s := fst (initialize Sqlite.engine Scenario.empty_store) in
  snd (initialize Sqlite.engine Scenario.empty_store) = inr tt /\
  Sqlite.tracking (world s) = [("001_initial", 1756339200004%Z)] /\
  map Sqlite.obj_name (Sqlite.schema (world s)) = ["migrations"; "exams"] /\
  snd (tableExists Sqlite.engine "does_not_exist" s) = inr false.
Proof. vm_compute. repeat split. Qed.

(** After the failure of C1 a manager started afresh on the same mock
    does run the batch again. *)
Example restart_retries_migration :
  let failed := fst (initialize Mock.engine Scenario.batch_fails) in
  let restarted := mkState (E := Mock.engine) None (world failed) [] [] in
  initialize Mock.engine restarted =
    (mkState (E := Mock.engine) (Some tt) (world failed)
       [EvOpen dbName;
        EvExecute tt sql_pragma_foreign_keys None;
        EvExecute tt sql_create_migrations None;
        EvExecute tt sql_select_version (Some [VText "001_initial"]);
        EvExecute tt getMigration001 None;
        EvExecute tt sql_insert_migration
          (Some [VText "001_initial"; VInt 1756339200000%Z])]
       [ConsoleLog "Database exam_engine.db opened successfully";
        ConsoleLog "Applying migration 001_initial...";
        ConsoleLog "Migration 001_initial applied successfully"],
     inr tt).
Proof. vm_compute. reflexivity. Qed.

(** * Further properties *)

(** ** The order of an initialization *)

Section InitializeOrder.

Variable E : Engine.

(** The pragma throws: the opened connection stays in the handle. *)
Lemma initialize_pragma_throws (s : State E) w0 c wa e :
  db s = None ->
  open E dbName (world s) = (w0, inr c) ->
  conn_execute E c sql_pragma_foreign_keys None w0 = (wa, inl e) ->
  initialize E s =
    (mkState (Some c) wa
       (trace s ++ [EvOpen dbName; EvExecute c sql_pragma_foreign_keys None])
       (console s ++
        [ConsoleLog ("Database " ++ dbName ++ " opened successfully")%string;
         ConsoleError "Failed to initialize database:" e]),
     inl e).
Proof.
  intros Hdb Hopen Hpragma. destruct s as [d w t co].
  cbn in Hdb, Hopen. subst d. unfold initialize. unfold_monad.
  rewrite Hopen. cbv beta iota. rewrite Hpragma. cbv beta iota.
  rewrite <- !app_assoc. reflexivity.
Qed.

(** The creation of the tracking table throws. *)
Lemma initialize_create_throws (s : State E) w0 c wa ra wb e :
  db s = None ->
  open E dbName (world s) = (w0, inr c) ->
  conn_execute E c sql_pragma_foreign_keys None w0 = (wa, inr ra) ->
  conn_execute E c sql_create_migrations None wa = (wb, inl e) ->
  initialize E s =
    (mkState (Some c) wb
       (trace s ++ [EvOpen dbName; EvExecute c sql_pragma_foreign_keys None;
                    EvExecute c sql_create_migrations None])
       (console s ++
        [ConsoleLog ("Database " ++ dbName ++ " opened successfully")%string;
         ConsoleError "Failed to initialize database:" e]),
     inl e).
Proof.
  intros Hdb Hopen Hpragma Hcreate. destruct s as [d w t co].
  cbn in Hdb, Hopen. subst d. unfold initialize, runMigrations. unfold_monad.
  rewrite Hopen. cbv beta iota. rewrite Hpragma. cbv beta iota.
  rewrite Hcreate. cbv beta iota.
  rewrite <- !app_assoc. reflexivity.
Qed.

(** Every run of [initialize] from a null handle, by what the engine
    answers. *)
Lemma initialize_order (s : State E) :
  db s = None ->
  let s' := fst (initialize E s) in
  match open E dbName (world s) with
  | (_, inl e) =>
      issued s s' = [EvOpen dbName] /\
      snd (initialize E s) = inl e /\ db s' = None
  | (_, inr c) =>
      exists k t,
        issued s s' = EvOpen dbName :: firstn k (initialize_calls c t) /\
        1 <= k <= 5 /\
        db s' = Some c /\
        (snd (initialize E s) = inr tt -> k = 3 \/ k = 5)
  end.
Proof.
  intros Hdb s'. subst s'.
  destruct (open E dbName (world s)) as [w0 [e | c]] eqn:Hopen.
  { destruct (initialize_open_failure E s w0 e Hdb Hopen)
      as (s' & Hrun & Hnull & Htrace).
    rewrite Hrun. cbn [fst snd]. rewrite (issued_app E s s' _ Htrace). auto. }
  destruct (conn_execute E c sql_pragma_foreign_keys None w0)
    as [wa [e | ra]] eqn:Hpragma.
  { rewrite (initialize_pragma_throws s w0 c wa e) by assumption.
    cbn [fst snd db]. rewrite issued_mk.
    exists 1, 0%Z. repeat split; try lia; try discriminate. }
  destruct (conn_execute E c sql_create_migrations None wa)
    as [wb [e | rb]] eqn:Hcreate.
  { rewrite (initialize_create_throws s w0 c wa ra wb e) by assumption.
    cbn [fst snd db]. rewrite issued_mk.
    exists 2, 0%Z. repeat split; try lia; try discriminate. }
  rewrite (initialize_run E s w0 c wa ra wb rb) by assumption.
  match goal with
  | |- context [runMigration E ?v ?m ?s0] => set (sc := s0)
  end.
  assert (Hsc : db sc = Some c) by reflexivity.
  destruct (conn_execute E c sql_select_version (Some [VText "001_initial"])
              (world sc)) as [wc [e | rc]] eqn:Hcheck.
  { rewrite (runMigration_check_throws E sc c "001_initial" getMigration001
               wc e) by assumption.
    cbn [fst snd db world trace console]. unfold sc. cbn [trace].
    rewrite <- app_assoc, issued_mk.
    exists 3, 0%Z. repeat split; try lia; try discriminate. }
  destruct (has_rows rc) eqn:Hrows.
  { rewrite (runMigration_applied E sc c "001_initial" getMigration001
               wc rc) by assumption.
    cbn [fst snd db world trace console]. unfold sc. cbn [trace].
    rewrite <- app_assoc, issued_mk.
    exists 3, 0%Z. repeat split; try lia; auto. }
  destruct (conn_execute E c getMigration001 None wc)
    as [w2 [e | r2]] eqn:Hbatch.
  { rewrite (runMigration_batch_throws E sc c "001_initial" getMigration001
               wc rc w2 e) by assumption.
    cbn [fst snd db world trace console]. unfold sc. cbn [trace].
    rewrite <- app_assoc, issued_mk.
    exists 4, 0%Z. repeat split; try lia; try discriminate. }
  destruct (conn_execute E c sql_insert_migration
              (Some [VText "001_initial"; VInt (Date_now E w2)]) w2)
    as [w3 [e | r3]] eqn:Hins.
  - rewrite (runMigration_insert_throws E sc c "001_initial" getMigration001
               wc rc w2 r2 w3 e) by assumption.
    cbn [fst snd db world trace console]. unfold sc. cbn [trace].
    rewrite <- app_assoc, issued_mk.
    exists 5, (Date_now E w2). repeat split; try lia; try discriminate.
  - rewrite (runMigration_recorded E sc c "001_initial" getMigration001
               wc rc w2 r2 w3 r3) by assumption.
    cbn [fst snd db world trace console]. unfold sc. cbn [trace].
    rewrite <- app_assoc, issued_mk.
    exists 5, (Date_now E w2). repeat split; try lia; auto.
Qed.

(** X1.  An initialization from a null handle, once [open] has
    returned, issues its engine calls in the order of the source: the
    foreign-key pragma, the creation of the tracking table, the version
    check, the migration batch, the tracking insertion, each on the
    connection that [open] returned and each only after every earlier
    one has returned.  The first call that throws is the last call
    issued and its error is the outcome; the engine is left as that
    call left it.  The initialization succeeds only after a version
    check that answers with a row (migration already applied), or
    after the insertion; the time bound to the tracking row is the
    clock read after the batch has run.  The handle holds the
    connection in every case. *)
Theorem initialize_calls_in_order (s : State E) (w0 : World E) (c : Conn E) :
  db s = None ->
  open E dbName (world s) = (w0, inr c) ->
  let s' := fst (initialize E s) in
  let outcome := snd (initialize E s) in
  let pragma := EvExecute c sql_pragma_foreign_keys None in
  let create := EvExecute c sql_create_migrations None in
  let check := EvExecute c sql_select_version (Some [VText "001_initial"]) in
  let batch := EvExecute c getMigration001 None in
  let insert t :=
    EvExecute c sql_insert_migration (Some [VText "001_initial"; VInt t]) in
  db s' = Some c /\
  match conn_execute E c sql_pragma_foreign_keys None w0 with
  | (wa, inl e) =>
      issued s s' = [EvOpen dbName; pragma] /\
      outcome = inl e /\ world s' = wa
  | (wa, inr _) =>
  match conn_execute E c sql_create_migrations None wa with
  | (wb, inl e) =>
      issued s s' = [EvOpen dbName; pragma; create] /\
      outcome = inl e /\ world s' = wb
  | (wb, inr _) =>
  match
    conn_execute E c sql_select_version (Some [VText "001_initial"]) wb
  with
  | (wc, inl e) =>
      issued s s' = [EvOpen dbName; pragma; create; check] /\
      outcome = inl e /\ world s' = wc
  | (wc, inr (Some (mkQueryResult (Some (RowsArray (_ :: _))))))
  | (wc, inr (Some (mkQueryResult (Some (RowsSet (S _) _))))) =>
      issued s s' = [EvOpen dbName; pragma; create; check] /\
      outcome = inr tt /\ world s' = wc
  | (wc, inr _) =>
  match conn_execute E c getMigration001 None wc with
  | (w2, inl e) =>
      issued s s' = [EvOpen dbName; pragma; create; check; batch] /\
      outcome = inl e /\ world s' = w2
  | (w2, inr _) =>
      issued s s' =
        [EvOpen dbName; pragma; create; check; batch;
         insert (Date_now E w2)] /\
      match
        conn_execute E c sql_insert_migration
          (Some [VText "001_initial"; VInt (Date_now E w2)]) w2
      with
      | (w3, inl e) => outcome = inl e /\ world s' = w3
      | (w3, inr _) => outcome = inr tt /\ world s' = w3
      end
  end
  end
  end
  end.
Proof.
  intros Hdb Hopen s' outcome pragma create check batch insert.
  subst s' outcome.
  split; [exact (initialize_opened E s w0 c Hdb Hopen) |].
  destruct (conn_execute E c sql_pragma_foreign_keys None w0)
    as [wa [e | ra]] eqn:Hpragma.
  { rewrite (initialize_pragma_throws s w0 c wa e) by assumption.
    cbn [fst snd world]. rewrite issued_mk. auto. }
  destruct (conn_execute E c sql_create_migrations None wa)
    as [wb [e | rb]] eqn:Hcreate.
  { rewrite (initialize_create_throws s w0 c wa ra wb e) by assumption.
    cbn [fst snd world]. rewrite issued_mk. auto. }
  rewrite (initialize_run E s w0 c wa ra wb rb) by assumption.
  match goal with
  | |- context [runMigration E ?v ?m ?s0] => set (sc := s0)
  end.
  assert (Hsc : db sc = Some c) by reflexivity.
  destruct (conn_execute E c sql_select_version (Some [VText "001_initial"])
              wb) as [wc [e | rc]] eqn:Hcheck.
  { rewrite (runMigration_check_throws E sc c "001_initial" getMigration001
               wc e) by assumption.
    cbn [fst snd world trace]. unfold sc. cbn [trace].
    rewrite <- app_assoc, issued_mk. auto. }
  assert (Hrow : has_rows rc = true ->
            issued s
              (fst match runMigration E "001_initial" getMigration001 sc with
                   | (s', inl e) =>
                       (mkState (db s') (world s') (trace s')
                          (console s' ++
                           [ConsoleError "Failed to initialize database:" e]),
                        inl e)
                   | (s', inr _) => (s', inr tt)
                   end) = [EvOpen dbName; pragma; create; check] /\
            snd match runMigration E "001_initial" getMigration001 sc with
                | (s', inl e) =>
                    (mkState (db s') (world s') (trace s')
                       (console s' ++
                        [ConsoleError "Failed to initialize database:" e]),
                     inl e)
                | (s', inr _) => (s', inr tt)
                end = inr tt /\
            world
              (fst match runMigration E "001_initial" getMigration001 sc with
                   | (s', inl e) =>
                       (mkState (db s') (world s') (trace s')
                          (console s' ++
                           [ConsoleError "Failed to initialize database:" e]),
                        inl e)
                   | (s', inr _) => (s', inr tt)
                   end) = wc).
  { intro Hrows.
    rewrite (runMigration_applied E sc c "001_initial" getMigration001
               wc rc) by assumption.
    cbn [fst snd world trace]. unfold sc. cbn [trace].
    rewrite <- app_assoc, issued_mk. auto. }
  destruct rc as [[[[[| row items] | [| n] item] |]] |];
    try (apply Hrow; reflexivity);
    clear Hrow;
    match type of Hcheck with
    | _ = (_, inr ?r) => assert (Hrows : has_rows r = false) by reflexivity
    end;
    (destruct (conn_execute E c getMigration001 None wc)
       as [w2 [e | r2]] eqn:Hbatch;
     [ rewrite (runMigration_batch_throws E sc c "001_initial"
                  getMigration001 wc _ w2 e Hsc Hcheck Hrows Hbatch)
     | destruct (conn_execute E c sql_insert_migration
                   (Some [VText "001_initial"; VInt (Date_now E w2)]) w2)
         as [w3 [e | r3]] eqn:Hins;
       [ rewrite (runMigration_insert_throws E sc c "001_initial"
                    getMigration001 wc _ w2 r2 w3 e
                    Hsc Hcheck Hrows Hbatch Hins)
       | rewrite (runMigration_recorded E sc c "001_initial"
                    getMigration001 wc _ w2 r2 w3 r3
                    Hsc Hcheck Hrows Hbatch Hins) ] ];
     cbn [fst snd world trace]; unfold sc; cbn [trace];
     rewrite <- app_assoc, issued_mk; auto).
Qed.

End InitializeOrder.

Lemma initialize_calls_in_order_witness :
  (let s := Mock.fresh [Mock.throws "disk I/O error"] Mock.undefined in
   let s' := fst (initialize Mock.engine s) in
   db s' = Some tt /\
   issued s s' = [EvOpen dbName; EvExecute tt sql_pragma_foreign_keys None] /\
   snd (initialize Mock.engine s) = inl (Error "disk I/O error") /\
   world s' = Mock.mkWorld [] Mock.undefined 1756339200000%Z) /\
  (let s := Scenario.already_applied in
   let s' := fst (initialize Mock.engine s) in
   db s' = Some tt /\
   issued s s' =
     [EvOpen dbName;
      EvExecute tt sql_pragma_foreign_keys None;
      EvExecute tt sql_create_migrations None;
      EvExecute tt sql_select_version (Some [VText "001_initial"])] /\
   snd (initialize Mock.engine s) = inr tt /\
   world s' = Mock.mkWorld [] Mock.undefined 1756339200000%Z) /\
  (let s := Scenario.batch_fails in
   let s' := fst (initialize Mock.engine s) in
   db s' = Some tt /\
   issued s s' =
     [EvOpen dbName;
      EvExecute tt sql_pragma_foreign_keys None;
      EvExecute tt sql_create_migrations None;
      EvExecute tt sql_select_version (Some [VText "001_initial"]);
      EvExecute tt getMigration001 None] /\
   snd (initialize Mock.engine s) = inl (Error "disk I/O error") /\
   world s' = Mock.mkWorld [] Mock.undefined 1756339200000%Z) /\
  (let s := Mock.fresh Scenario.fresh_store Mock.undefined in
   let s' := fst (initialize Mock.engine s) in
   db s' = Some tt /\
   issued s s' =
     [EvOpen dbName;
      EvExecute tt sql_pragma_foreign_keys None;
      EvExecute tt sql_create_migrations None;
      EvExecute tt sql_select_version (Some [VText "001_initial"]);
      EvExecute tt getMigration001 None;
      EvExecute tt sql_insert_migration
        (Some [VText "001_initial"; VInt 1756339200000%Z])] /\
   snd (initialize Mock.engine s) = inr tt /\
   world s' = Mock.mkWorld [] Mock.undefined 1756339200000%Z).
Proof.
  split; [| split; [| split]].
  - exact (initialize_calls_in_order Mock.engine
             (Mock.fresh [Mock.throws "disk I/O error"] Mock.undefined)
             (world (Mock.fresh [Mock.throws "disk I/O error"]
                       Mock.undefined))
             tt eq_refl eq_refl).
  - exact (initialize_calls_in_order Mock.engine Scenario.already_applied
             (world Scenario.already_applied) tt eq_refl eq_refl).
  - exact (initialize_calls_in_order Mock.engine Scenario.batch_fails
             (world Scenario.batch_fails) tt eq_refl eq_refl).
  - exact (initialize_calls_in_order Mock.engine
             (Mock.fresh Scenario.fresh_store Mock.undefined)
             (world (Mock.fresh Scenario.fresh_store Mock.undefined))
             tt eq_refl eq_refl).
Defined.

(** ** The paths of an initialization *)

Section InitializePaths.

Variable E : Engine.

(** A null handle makes [initialize] start with [open]. *)
Lemma initialize_null_opens (s : State E) :
  db s = None ->
  exists rest, issued s (fst (initialize E s)) = EvOpen dbName :: rest.
Proof.
  intro Hdb. pose proof (initialize_order E s Hdb) as H. cbv zeta in H.
  destruct (open E dbName (world s)) as [w0 [e | c]].
  - destruct H as (H & _). rewrite H. eauto.
  - destruct H as (k & t & H & _). rewrite H. eauto.
Qed.


(** X2.  First initialization of a store without the tracking row:
    when [open], the pragma, the creation of the tracking table, the
    version check (no row), the batch and the insertion all return,
    [initialize] succeeds; the six calls were issued in that order on
    the opened connection, the tracking row carries the clock as read
    after the batch, and [getConnection] hands out that connection. *)
Theorem initialize_fresh_store (s : State E) w0 c wa ra wb rb wc rc w2 r2 w3 r3 :
  db s = None ->
  open E dbName (world s) = (w0, inr c) ->
  conn_execute E c sql_pragma_foreign_keys None w0 = (wa, inr ra) ->
  conn_execute E c sql_create_migrations None wa = (wb, inr rb) ->
  conn_execute E c sql_select_version (Some [VText "001_initial"]) wb
    = (wc, inr rc) ->
  has_rows rc = false ->
  conn_execute E c getMigration001 None wc = (w2, inr r2) ->
  conn_execute E c sql_insert_migration
    (Some [VText "001_initial"; VInt (Date_now E w2)]) w2 = (w3, inr r3) ->
  let s' := fst (initialize E s) in
  snd (initialize E s) = inr tt /\
  issued s s' = EvOpen dbName :: initialize_calls c (Date_now E w2) /\
  world s' = w3 /\
  getConnection E s' = (s', inr c).
Proof.
  intros Hdb Hopen Hpragma Hcreate Hcheck Hrows Hbatch Hins s'. subst s'.
  rewrite (initialize_run E s w0 c wa ra wb rb) by assumption.
  match goal with
  | |- context [runMigration E ?v ?m ?s0] =>
      rewrite (runMigration_recorded E s0 c v m wc rc w2 r2 w3 r3)
        by (try reflexivity; assumption)
  end.
  cbn [fst snd world trace db console]. rewrite <- app_assoc, issued_mk.
  repeat split.
Qed.

(** X3.  Initialization of a store whose tracking table already holds
    the version: [initialize] succeeds after four calls (open, pragma,
    creation of the tracking table, version check); neither the batch
    nor an insertion is issued, and the engine is left as the version
    check left it. *)
Theorem initialize_already_applied (s : State E) w0 c wa ra wb rb wc rc :
  db s = None ->
  open E dbName (world s) = (w0, inr c) ->
  conn_execute E c sql_pragma_foreign_keys None w0 = (wa, inr ra) ->
  conn_execute E c sql_create_migrations None wa = (wb, inr rb) ->
  conn_execute E c sql_select_version (Some [VText "001_initial"]) wb
    = (wc, inr rc) ->
  has_rows rc = true ->
  let s' := fst (initialize E s) in
  snd (initialize E s) = inr tt /\
  issued s s' =
    [EvOpen dbName;
     EvExecute c sql_pragma_foreign_keys None;
     EvExecute c sql_create_migrations None;
     EvExecute c sql_select_version (Some [VText "001_initial"])] /\
  world s' = wc /\
  db s' = Some c.
Proof.
  intros Hdb Hopen Hpragma Hcreate Hcheck Hrows s'. subst s'.
  rewrite (initialize_run E s w0 c wa ra wb rb) by assumption.
  match goal with
  | |- context [runMigration E ?v ?m ?s0] =>
      rewrite (runMigration_applied E s0 c v m wc rc)
        by (try reflexivity; assumption)
  end.
  cbn [fst snd world trace db console]. rewrite <- app_assoc, issued_mk.
  repeat split.
Qed.

(** X4.  When [open] throws, [initialize] rejects with that error
    after that one call, the handle is still null, and the next
    [initialize] starts over: its first engine call is [open] again. *)
Theorem initialize_open_failure_retry (s : State E) w0 e :
  db s = None ->
  open E dbName (world s) = (w0, inl e) ->
  let s' := fst (initialize E s) in
  snd (initialize E s) = inl e /\
  issued s s' = [EvOpen dbName] /\
  db s' = None /\
  exists rest, issued s' (fst (initialize E s')) = EvOpen dbName :: rest.
Proof.
  intros Hdb Hopen s'. subst s'.
  destruct (initialize_open_failure E s w0 e Hdb Hopen)
    as (s' & Hrun & Hnull & Htrace).
  rewrite Hrun. cbn [fst snd]. rewrite (issued_app E s s' _ Htrace).
  repeat split; try assumption. apply initialize_null_opens. exact Hnull.
Qed.

(** X5.  After [close] on a live connection the manager is back where
    it started: [getConnection] throws the not-initialized error, and
    [initialize] does not take the early return but opens the store
    again. *)
Theorem close_then_reopen (s : State E) (c : Conn E) :
  db s = Some c ->
  let s1 := fst (close E s) in
  snd (close E s) = inr tt /\
  getConnection E s1 =
    (s1, inl (Error "Database not initialized. Call initialize() first.")) /\
  exists rest, issued s1 (fst (initialize E s1)) = EvOpen dbName :: rest.
Proof.
  intros Hdb s1. subst s1. rewrite (close_live E s c Hdb). cbn [fst snd].
  repeat split. apply initialize_null_opens. reflexivity.
Qed.


End InitializePaths.

Lemma initialize_fresh_store_witness :
  let s := Scenario.empty_store in
  let s' := fst (initialize Sqlite.engine s) in
  snd (initialize Sqlite.engine s) = inr tt /\
  issued s s' =
    EvOpen dbName
      :: initialize_calls (E := Sqlite.engine) dbName 1756339200004%Z /\
  world s' =
    Sqlite.mkStore
      [Sqlite.mkSchemaRow "table" "migrations";
       Sqlite.mkSchemaRow "table" "exams"]
      [("001_initial", 1756339200004%Z)] 1756339200005%Z /\
  getConnection Sqlite.engine s' = (s', inr dbName).
Proof.
  pose (m := [Sqlite.mkSchemaRow "table" "migrations"]).
  pose (m' := [Sqlite.mkSchemaRow "table" "migrations";
               Sqlite.mkSchemaRow "table" "exams"]).
  exact (initialize_fresh_store Sqlite.engine Scenario.empty_store
           (Sqlite.mkStore [] [] 1756339200000%Z) dbName
           (Sqlite.mkStore [] [] 1756339200001%Z) Sqlite.no_rows
           (Sqlite.mkStore m [] 1756339200002%Z) Sqlite.no_rows
           (Sqlite.mkStore m [] 1756339200003%Z)
           (Sqlite.result_set "version" [])
           (Sqlite.mkStore m' [] 1756339200004%Z) Sqlite.no_rows
           (Sqlite.mkStore m' [("001_initial", 1756339200004%Z)]
              1756339200005%Z)
           Sqlite.no_rows
           eq_refl eq_refl eq_refl eq_refl eq_refl eq_refl eq_refl eq_refl).
Defined.

Lemma initialize_already_applied_witness :
  let s := Coverage.restarted in
  let s' := fst (initialize Sqlite.engine s) in
  snd (initialize Sqlite.engine s) = inr tt /\
  issued s s' =
    [EvOpen dbName;
     EvExecute dbName sql_pragma_foreign_keys None;
     EvExecute dbName sql_create_migrations None;
     EvExecute dbName sql_select_version (Some [VText "001_initial"])] /\
  world s' =
    Sqlite.mkStore Sqlite.migration001_schema
      [("001_initial", 1756339200003%Z)] 1756339200007%Z /\
  db s' = Some dbName.
Proof.
  pose (m := Sqlite.migration001_schema).
  pose (r := [("001_initial", 1756339200003%Z)]).
  exact (initialize_already_applied Sqlite.engine Coverage.restarted
           (Sqlite.mkStore m r 1756339200004%Z) dbName
           (Sqlite.mkStore m r 1756339200005%Z) Sqlite.no_rows
           (Sqlite.mkStore m r 1756339200006%Z) Sqlite.no_rows
           (Sqlite.mkStore m r 1756339200007%Z)
           (Sqlite.result_set "version" ["001_initial"])
           eq_refl eq_refl eq_refl eq_refl eq_refl eq_refl).
Defined.

Lemma initialize_open_failure_retry_witness :
  let s := Coverage.closed_store in
  let s' := fst (initialize Coverage.cannot_open s) in
  snd (initialize Coverage.cannot_open s)
    = inl (Error "unable to open database file") /\
  issued s s' = [EvOpen dbName] /\
  db s' = None /\
  exists rest,
    issued s' (fst (initialize Coverage.cannot_open s')) = EvOpen dbName :: rest.
Proof.
  exact (initialize_open_failure_retry Coverage.cannot_open
           Coverage.closed_store (world Coverage.closed_store)
           (Error "unable to open database file") eq_refl eq_refl).
Defined.

Lemma close_then_reopen_witness :
  let s1 := fst (close Mock.engine Scenario.ready) in
  snd (close Mock.engine Scenario.ready) = inr tt /\
  getConnection Mock.engine s1 =
    (s1, inl (Error "Database not initialized. Call initialize() first.")) /\
  exists rest,
    issued s1 (fst (initialize Mock.engine s1)) = EvOpen dbName :: rest.
Proof.
  exact (close_then_reopen Mock.engine Scenario.ready tt eq_refl).
Defined.


(** ** Fixture loading *)

Section FixtureLoad.

Variable E : Engine.

Ltac next_call c :=
  match goal with
  | |- context [conn_execute E c ?sql ?ps ?w0] =>
      destruct (conn_execute E c sql ps w0) as [? [? | ?]]; cbv beta iota
  end.

(** X7.  On a live connection [loadFixtures] is the plain sequence of
    its four insertions (exam, topic, question, content pack, so that
    every referenced row is inserted before the row that refers to
    it): the engine ends as after running them one by one up to the
    first that throws, the call rejects with exactly that error or
    succeeds when all four return, the calls issued are the
    corresponding initial segment, and every time stamp bound is the
    one clock reading taken before the first statement. *)
Theorem loadFixtures_runs_statements_in_order (s : State E) (c : Conn E) :
  db s = Some c ->
  let t := Date_now E (world s) in
  let s' := fst (loadFixtures E s) in
  (world s', snd (loadFixtures E s))
    = execute_all E c (fixture_statements t) (world s) /\
  db s' = Some c /\
  exists k,
    issued s s' = firstn k (fixture_events c t) /\
    (snd (loadFixtures E s) = inr tt -> k = 4).
Proof.
  intros Hdb t0 s'. subst t0 s'. destruct s as [d w t co].
  cbn in Hdb. subst d.
  unfold loadFixtures, fixture_statements. cbn [execute_all]. unfold_monad.
  set (s := mkState (Some c) w t co).
  do 4 (next_call c;
        [ rewrite <- ?app_assoc; change t with (trace s); rewrite issued_mk;
          split; [reflexivity |]; split; [reflexivity |];
          first [ exists 1; split; [reflexivity | discriminate]
                | exists 2; split; [reflexivity | discriminate]
                | exists 3; split; [reflexivity | discriminate]
                | exists 4; split; [reflexivity | discriminate] ]
        |]).
  rewrite <- ?app_assoc; change t with (trace s). rewrite issued_mk.
  split; [reflexivity |]. split; [reflexivity |].
  exists 4. split; reflexivity.
Qed.

End FixtureLoad.

Lemma loadFixtures_runs_statements_in_order_witness :
  let s := Coverage.live [Scenario.ok; Scenario.ok;
                          Mock.throws "FOREIGN KEY constraint failed"]
             Mock.undefined in
  let t := 1756339200000%Z in
  let s' := fst (loadFixtures Mock.engine s) in
  (world s', snd (loadFixtures Mock.engine s))
    = execute_all Mock.engine tt (fixture_statements t) (world s) /\
  db s' = Some tt /\
  exists k,
    issued s s' = firstn k (fixture_events (E := Mock.engine) tt t) /\
    (snd (loadFixtures Mock.engine s) = inr tt -> k = 4).
Proof.
  exact (loadFixtures_runs_statements_in_order Mock.engine
           (Coverage.live [Scenario.ok; Scenario.ok;
                           Mock.throws "FOREIGN KEY constraint failed"]
              Mock.undefined) tt eq_refl).
Defined.

(** ** The two catalogue queries *)

Section Queries.

Variable E : Engine.

(** [tableExists] on a live connection, by what the engine answers. *)
Lemma tableExists_run (s : State E) c tableName w1 out :
  db s = Some c ->
  conn_execute E c sql_table_exists (Some [VText tableName]) (world s)
    = (w1, out) ->
  tableExists E tableName s =
    (mkState (Some c) w1
       (trace s ++ [EvExecute c sql_table_exists (Some [VText tableName])])
       (console s),
     match out with
     | inl e => inl e
     | inr result => inr (has_rows result)
     end).
Proof.
  intros Hdb Hex. destruct s as [d w t co]. cbn in Hdb, Hex. subst d.
  unfold tableExists. unfold_monad. rewrite Hex.
  destruct out; reflexivity.
Qed.

(** [getAllTables] on a live connection, by what the engine answers. *)
Lemma getAllTables_call (s : State E) c w1 out :
  db s = Some c ->
  conn_execute E c sql_all_tables None (world s) = (w1, out) ->
  getAllTables E s =
    (mkState (Some c) w1 (trace s ++ [EvExecute c sql_all_tables None])
       (console s),
     match out with
     | inl e => inl e
     | inr result => inr (table_names result)
     end).
Proof.
  intros Hdb Hex. destruct s as [d w t co]. cbn in Hdb, Hex. subst d.
  unfold getAllTables. unfold_monad. rewrite Hex.
  destruct out as [e | [[[[items | n item] |]] |]]; try reflexivity.
  cbv beta iota. unfold table_names. cbn [rows rows_list].
  rewrite push_names_map, map_map. reflexivity.
Qed.

Lemma query_null (s : State E) tableName :
  db s = None ->
  tableExists E tableName s = (s, inl not_available) /\
  getAllTables E s = (s, inl not_available) /\
  loadFixtures E s = (s, inl not_available).
Proof.
  intro Hdb. destruct s as [d w t co]. cbn in Hdb. subst d. repeat split.
Qed.

(** X9.  On a live connection [tableExists] issues exactly one
    statement, its query with the name bound, and logs nothing.  It
    answers [true] when the result holds at least one row and [false]
    when the result is [undefined], has no [rows], or has none; an
    error of the engine is passed on as it is. *)
Theorem tableExists_answer (s : State E) (c : Conn E) (tableName : string)
    (w1 : World E) (out : JsError + option QueryResult) :
  db s = Some c ->
  conn_execute E c sql_table_exists (Some [VText tableName]) (world s)
    = (w1, out) ->
  let s' := fst (tableExists E tableName s) in
  issued s s' = [EvExecute c sql_table_exists (Some [VText tableName])] /\
  world s' = w1 /\
  console s' = console s /\
  db s' = Some c /\
  snd (tableExists E tableName s) =
    match out with
    | inl e => inl e
    | inr None => inr false
    | inr (Some q) =>
        match rows q with
        | None => inr false
        | Some r => inr (negb (rows_length r =? 0))
        end
    end.
Proof.
  intros Hdb Hex s'. subst s'.
  rewrite (tableExists_run s c tableName w1 out Hdb Hex).
  cbn [fst snd world console db]. rewrite issued_mk. repeat split.
  destruct out as [e | [[[r |]] |]]; try reflexivity.
  cbn [has_rows rows]. destruct (rows_length r); reflexivity.
Qed.

(** The result-set shape and the array shape of the same rows. *)
Lemma rows_list_set (items : list Row) :
  rows_list (RowsSet (List.length items) (fun i => nth i items [])) = items.
Proof.
  cbn [rows_list]. induction items as [| x l IH]; [reflexivity |].
  cbn [List.length seq map nth]. f_equal.
  rewrite <- seq_shift, map_map. exact IH.
Qed.

(** X10.  On a live connection [getAllTables] issues exactly one
    statement and logs nothing.  It returns one entry per row, the
    [name] of the row, in the order of the rows, whether the rows come
    as an array or as a result set with [length] and [item]; the two
    shapes of the same rows give the same list.  It returns the empty
    list for [undefined] and for a result without [rows], and passes
    an error of the engine on as it is. *)
Theorem getAllTables_rows_in_order (s : State E) (c : Conn E)
    (w1 : World E) (out : JsError + option QueryResult) :
  db s = Some c ->
  conn_execute E c sql_all_tables None (world s) = (w1, out) ->
  let s' := fst (getAllTables E s) in
  issued s s' = [EvExecute c sql_all_tables None] /\
  world s' = w1 /\
  console s' = console s /\
  snd (getAllTables E s) =
    match out with
    | inl e => inl e
    | inr None => inr []
    | inr (Some q) =>
        match rows q with
        | None => inr []
        | Some r => inr (map (fun row => row_field row "name") (rows_list r))
        end
    end /\
  (forall items,
     out = inr (Some (mkQueryResult
                        (Some (RowsSet (List.length items)
                                 (fun i => nth i items []))))) ->
     snd (getAllTables E s)
       = inr (map (fun row => row_field row "name") items)).
Proof.
  intros Hdb Hex s'. subst s'.
  rewrite (getAllTables_call s c w1 out Hdb Hex).
  cbn [fst snd world console]. rewrite issued_mk. repeat split.
  - destruct out as [e | [[[r |]] |]]; reflexivity.
  - intros items ->. unfold table_names. cbn [rows].
    rewrite rows_list_set. reflexivity.
Qed.

Lemma Forall_firstn_of {A} (P : A -> Prop) (k : nat) (l : list A) :
  Forall P l -> Forall P (firstn k l).
Proof.
  intro H. apply Forall_forall. intros x Hx.
  rewrite Forall_forall in H. apply H. exact (In_firstn x k l Hx).
Qed.

Lemma initialize_calls_well_bound (c : Conn E) (t : Z) :
  Forall well_bound (initialize_calls c t).
Proof. repeat constructor. Qed.

Lemma fixture_events_well_bound (c : Conn E) (t : Z) :
  Forall well_bound (fixture_events c t).
Proof. repeat constructor. Qed.

(** X8.  Every statement that [initialize], [loadFixtures],
    [tableExists] and [getAllTables] hand to the engine, in any run,
    binds exactly as many values as its text has [?] marks (none for
    the statements sent without parameters). *)
Theorem statements_bind_every_placeholder (s : State E) (tableName : string) :
  Forall well_bound (issued s (fst (initialize E s))) /\
  Forall well_bound (issued s (fst (loadFixtures E s))) /\
  Forall well_bound (issued s (fst (tableExists E tableName s))) /\
  Forall well_bound (issued s (fst (getAllTables E s))).
Proof.
  destruct (db s) as [c |] eqn:Hdb.
  - split; [| split; [| split]].
    + rewrite (initialize_live E s c Hdb). cbn [fst]. rewrite issued_refl.
      constructor.
    + destruct (loadFixtures_issued E s c Hdb) as [k Hk]. rewrite Hk.
      apply Forall_firstn_of, fixture_events_well_bound.
    + destruct (conn_execute E c sql_table_exists (Some [VText tableName])
                  (world s)) as [w1 out] eqn:Hex.
      rewrite (tableExists_run s c tableName w1 out Hdb Hex).
      cbn [fst]. rewrite issued_mk. repeat constructor.
    + destruct (conn_execute E c sql_all_tables None (world s))
        as [w1 out] eqn:Hex.
      rewrite (getAllTables_call s c w1 out Hdb Hex).
      cbn [fst]. rewrite issued_mk. repeat constructor.
  - destruct (query_null s tableName Hdb) as (Ht & Ha & Hl).
    rewrite Ht, Ha, Hl. cbn [fst]. rewrite issued_refl.
    split; [| repeat split; constructor].
    pose proof (initialize_order E s Hdb) as H. cbv zeta in H.
    destruct (open E dbName (world s)) as [w0 [e | c]].
    + destruct H as (H & _). rewrite H. repeat constructor.
    + destruct H as (k & t & H & _). rewrite H. constructor; [exact I |].
      apply Forall_firstn_of, initialize_calls_well_bound.
Qed.

End Queries.

Lemma tableExists_answer_witness :
  let s := Coverage.live [] Mock.undefined in
  let s' := fst (tableExists Mock.engine "exams" s) in
  issued s s' = [EvExecute tt sql_table_exists (Some [VText "exams"])] /\
  world s' = world s /\
  console s' = console s /\
  db s' = Some tt /\
  snd (tableExists Mock.engine "exams" s) = inr false.
Proof.
  exact (tableExists_answer Mock.engine (Coverage.live [] Mock.undefined) tt
           "exams" (world (Coverage.live [] Mock.undefined)) (inr None)
           eq_refl eq_refl).
Defined.

(** ** On the SQL engine *)

Module SqliteRuns.
Import Sqlite.

(** What the engine does with each statement of the manager. *)
Lemma execute_pragma c (w : Store) :
  execute c sql_pragma_foreign_keys None w = (tick w, inr no_rows).
Proof. dispatch. reflexivity. Qed.

Lemma execute_create c (w : Store) :
  execute c sql_create_migrations None w = create_table "migrations" (tick w).
Proof. dispatch. reflexivity. Qed.



Lemma execute_table_exists c (n : string) (w : Store) :
  execute c sql_table_exists (Some [VText n]) w =
    (tick w, inr (result_set "name" (select_table (schema w) n))).
Proof. dispatch. reflexivity. Qed.

Lemma has_rows_select_table (sc : list SchemaRow) (n : string) :
  has_rows (result_set "name" (select_table sc n)) = has_table sc n.
Proof.
  unfold has_table, select_table. cbn [has_rows result_set rows rows_length].
  induction sc as [| r sc IH]; [reflexivity |].
  cbn [filter existsb].
  destruct (is_table r && String.eqb (obj_name r) n); [reflexivity | exact IH].
Qed.

(** A table spelled exactly so is found by a statement that names it. *)
Lemma same_name_refl (n : string) : same_name n n = true.
Proof. apply String.eqb_refl. Qed.

Lemma has_table_found (sc : list SchemaRow) n :
  has_table sc n = true ->
  existsb (fun r => is_table r && same_name (obj_name r) n) sc = true.
Proof.
  unfold has_table. rewrite !existsb_exists.
  intros (r & Hr & Hp). apply andb_true_iff in Hp. destruct Hp as [Ht Hn].
  apply String.eqb_eq in Hn. exists r. split; [exact Hr |].
  rewrite Ht, Hn, same_name_refl. reflexivity.
Qed.

Lemma has_table_find_table (sc : list SchemaRow) n :
  has_table sc n = true -> find_table sc n = true.
Proof.
  intro H. apply has_table_found in H. unfold find_table.
  rewrite existsb_exists in *. destruct H as (r & Hr & Hp).
  apply andb_true_iff in Hp. destruct Hp as [Ht Hn].
  exists r. split; [exact Hr |]. rewrite Ht, Hn. reflexivity.
Qed.





(** Creating a table that is there changes nothing. *)
Lemma create_table_found n (w : Store) :
  find_table (schema w) n = true ->
  create_table n w = (w, inr no_rows).
Proof.
  intro Ht. unfold create_table, create_table_if_not_exists.
  rewrite Ht. destruct w. reflexivity.
Qed.

(** [tableExists] on the SQL engine. *)
Lemma tableExists_sqlite (s : State engine) c (n : string) :
  db s = Some c ->
  tableExists engine n s =
    (mkState (E := engine) (Some c) (tick (world s))
       (trace s ++ [EvExecute c sql_table_exists (Some [VText n])])
       (console s),
     inr (has_table (schema (world s)) n)).
Proof.
  intro Hdb.
  rewrite (tableExists_run engine s c n (tick (world s))
             (inr (result_set "name" (select_table (schema (world s)) n)))
             Hdb (execute_table_exists c n (world s))).
  rewrite has_rows_select_table. reflexivity.
Qed.


Lemma has_table_iff (sc : list SchemaRow) n :
  has_table sc n = true <->
  exists r, In r sc /\ obj_type r = "table" /\ obj_name r = n.
Proof.
  unfold has_table, is_table. rewrite existsb_exists.
  split; intros (r & Hr & Hp); exists r; split; try exact Hr.
  - apply andb_true_iff in Hp. now rewrite <- !String.eqb_eq.
  - apply andb_true_iff. now rewrite !String.eqb_eq.
Qed.

(** X11.  On the SQL engine [tableExists] answers whether the
    catalogue holds an object of type table under exactly the given
    name (letter case included; an index or a view of that name does
    not count), and it changes neither the schema nor the tracking
    table. *)
Theorem tableExists_exact_and_read_only (s : State engine)
    (c : Conn engine) (n : string) :
  db s = Some c ->
  let s' := fst (tableExists engine n s) in
  snd (tableExists engine n s) = inr (has_table (schema (world s)) n) /\
  (has_table (schema (world s)) n = true <->
   exists r, In r (schema (world s)) /\
             obj_type r = "table" /\ obj_name r = n) /\
  schema (world s') = schema (world s) /\
  tracking (world s') = tracking (world s) /\
  db s' = Some c.
Proof.
  intros Hdb s'. subst s'. rewrite (tableExists_sqlite s c n Hdb).
  cbn [fst snd world db]. repeat split; try apply has_table_iff.
Qed.


(** X13.  On the SQL engine, initializing over a store that has the
    tracking table with a row for 001_initial (a restart after an
    earlier initialization) succeeds after the version check: the
    batch is not run, and the schema and the tracking table are
    exactly as before. *)
Theorem initialize_restart_changes_nothing (s : State engine) :
  db s = None ->
  has_table (schema (world s)) "migrations" = true ->
  In "001_initial" (map fst (tracking (world s))) ->
  let s' := fst (initialize engine s) in
  snd (initialize engine s) = inr tt /\
  issued s s' =
    EvOpen dbName :: firstn 3 (initialize_calls (E := engine) dbName 0%Z) /\
  schema (world s') = schema (world s) /\
  tracking (world s') = tracking (world s).
Proof.
  intros Hdb Htable Htracked s'. subst s'.
  apply has_table_find_table in Htable.
  set (w := world s) in *.
  pose (wb := tick (tick w)).
  assert (Hcreate : execute dbName sql_create_migrations None (tick w)
                    = (wb, inr no_rows)).
  { rewrite execute_create. apply create_table_found. exact Htable. }
  rewrite (initialize_run engine s w dbName (tick w) no_rows wb no_rows
             Hdb eq_refl (execute_pragma dbName w) Hcreate).
  destruct (SqliteFacts.execute_select_version dbName "001_initial" wb Htable)
    as (rc & Hcheck & Hrc).
  assert (Hrows : has_rows rc = true).
  { rewrite Hrc. apply existsb_exists. exists "001_initial".
    split; [exact Htracked | apply String.eqb_refl]. }
  match goal with
  | |- context [runMigration engine ?v ?m ?s0] =>
      rewrite (runMigration_applied engine s0 dbName v m (tick wb) rc
                 eq_refl Hcheck Hrows)
  end.
  cbn [fst snd world trace schema tracking tick wb].
  rewrite <- app_assoc, issued_mk. repeat split.
Qed.

End SqliteRuns.

Lemma tableExists_exact_and_read_only_witness :
  let s := Coverage.mixed_store in
  let s' := fst (tableExists Sqlite.engine "questions" s) in
  snd (tableExists Sqlite.engine "questions" s) = inr false /\
  (false = true <->
   exists r, In r (Sqlite.schema (world s)) /\
             Sqlite.obj_type r = "table" /\ Sqlite.obj_name r = "questions") /\
  Sqlite.schema (world s') = Sqlite.schema (world s) /\
  Sqlite.tracking (world s') = Sqlite.tracking (world s) /\
  db s' = Some dbName.
Proof.
  exact (SqliteRuns.tableExists_exact_and_read_only Coverage.mixed_store
           dbName "questions" eq_refl).
Defined.


Lemma initialize_restart_changes_nothing_witness :
  let s := Coverage.restarted in
  let s' := fst (initialize Sqlite.engine s) in
  snd (initialize Sqlite.engine s) = inr tt /\
  issued s s' =
    EvOpen dbName
      :: firstn 3 (initialize_calls (E := Sqlite.engine) dbName 0%Z) /\
  Sqlite.schema (world s') = Sqlite.schema (world s) /\
  Sqlite.tracking (world s') = Sqlite.tracking (world s).
Proof.
  apply (SqliteRuns.initialize_restart_changes_nothing Coverage.restarted).
  - reflexivity.
  - reflexivity.
  - simpl. auto.
Defined.

Lemma getAllTables_rows_in_order_witness :
  let s := Coverage.live [] (Mock.returns Coverage.test_rows) in
  let s' := fst (getAllTables Mock.engine s) in
  issued s s' = [EvExecute tt sql_all_tables None] /\
  world s' = world s /\
  console s' = console s /\
  snd (getAllTables Mock.engine s) =
    inr (map (fun row => row_field row "name") Coverage.test_rows) /\
  (forall items,
     Mock.returns Coverage.test_rows
       = inr (Some (mkQueryResult
                      (Some (RowsSet (List.length items)
                               (fun i => nth i items []))))) ->
     snd (getAllTables Mock.engine s)
       = inr (map (fun row => row_field row "name") items)).
Proof.
  exact (getAllTables_rows_in_order Mock.engine
           (Coverage.live [] (Mock.returns Coverage.test_rows)) tt
           (world (Coverage.live [] (Mock.returns Coverage.test_rows)))
           (Mock.returns Coverage.test_rows) eq_refl eq_refl).
Defined.

(** ** A version check that throws *)

Section CheckFailure.

Variable E : Engine.

(** X14.  When the version check itself throws, [runMigration] does
    not take the version for unapplied: it rejects with that error
    after that one statement, the batch is not run, nothing is
    inserted, and it logs nothing of its own. *)
Theorem runMigration_check_failure (s : State E) (c : Conn E)
    (version migration : string) (w1 : World E) (e : JsError) :
  db s = Some c ->
  conn_execute E c sql_select_version (Some [VText version]) (world s)
    = (w1, inl e) ->
  let s' := fst (runMigration E version migration s) in
  snd (runMigration E version migration s) = inl e /\
  issued s s' = [EvExecute c sql_select_version (Some [VText version])] /\
  ~ In (EvExecute c migration None) (issued s s') /\
  world s' = w1 /\
  console s' = console s.
Proof.
  intros Hdb Hcheck s'. subst s'.
  rewrite (runMigration_check_throws E s c version migration w1 e Hdb Hcheck).
  cbn [fst snd world console]. rewrite issued_mk. repeat split.
  intros [H | []]. discriminate H.
Qed.

End CheckFailure.

Lemma runMigration_check_failure_witness :
  let s := Coverage.no_tracking_table in
  let s' := fst (runMigration Sqlite.engine "001_initial" getMigration001 s) in
  snd (runMigration Sqlite.engine "001_initial" getMigration001 s)
    = inl (Error ("[react-native-quick-sqlite] SQL execution error: "
                  ++ "no such table: migrations")) /\
  issued s s' =
    [EvExecute dbName sql_select_version (Some [VText "001_initial"])] /\
  ~ In (EvExecute dbName getMigration001 None) (issued s s') /\
  world s' = Sqlite.mkStore [] [] 1756339200001%Z /\
  console s' = console s.
Proof.
  exact (runMigration_check_failure Sqlite.engine Coverage.no_tracking_table
           dbName "001_initial" getMigration001
           (Sqlite.mkStore [] [] 1756339200001%Z)
           (Sqlite.sql_error "no such table: migrations") eq_refl eq_refl).
Defined.

(** ** The one instance *)

Section Singleton.

Variable E : Engine.

Lemma getInstance_set (k : Class E) :
  instance (fst (getInstance k)) = Some (snd (getInstance k)).
Proof. unfold getInstance. destruct (instance k) eqn:H; [exact H | reflexivity]. Qed.

(** X15.  [getInstance] hands out one and the same manager: a second
    call returns the reference of the first and allocates nothing.
    The first call of all allocates the manager with a null handle and
    touches no other object; after the static field has been reset, as
    the tests do, the next call makes a new manager, again with a null
    handle, and leaves the old one alone. *)
Theorem getInstance_is_singleton (k : Class E) :
  instance_allocated k ->
  let k1 := fst (getInstance k) in
  let r1 := snd (getInstance k) in
  getInstance k1 = (k1, r1) /\
  r1 < List.length (objects k1) /\
  instance_allocated k1 /\
  firstn (List.length (objects k)) (objects k1) = objects k /\
  (instance k = None ->
   objects k1 = objects k ++ [None] /\ nth_error (objects k1) r1 = Some None) /\
  (let k2 := fst (getInstance (reset_instance k1)) in
   let r2 := snd (getInstance (reset_instance k1)) in
   r2 <> r1 /\
   nth_error (objects k2) r2 = Some None /\
   nth_error (objects k2) r1 = nth_error (objects k1) r1).
Proof.
  intros Hwf k1 r1. subst k1 r1. destruct k as [inst objs].
  unfold instance_allocated in *. cbn [instance objects] in Hwf.
  unfold getInstance, new_DatabaseManager, reset_instance.
  destruct inst as [r |]; cbn [fst snd instance objects].
  - pose proof (Hwf r eq_refl) as Hr.
    repeat split; try discriminate.
    + exact Hr.
    + exact Hwf.
    + apply firstn_all.
    + lia.
    + rewrite nth_error_app2, Nat.sub_diag by lia. reflexivity.
    + rewrite nth_error_app1 by exact Hr. reflexivity.
  - assert (Hlen : List.length (objs ++ [None (A := Conn E)])
                   = S (List.length objs))
      by (rewrite length_app; cbn; lia).
    repeat split.
    + rewrite Hlen. lia.
    + intros r Hr. injection Hr as <-. rewrite Hlen. lia.
    + rewrite firstn_app, Nat.sub_diag, firstn_all, app_nil_r. reflexivity.
    + rewrite nth_error_app2, Nat.sub_diag by lia. reflexivity.
    + rewrite Hlen. lia.
    + rewrite nth_error_app2, Nat.sub_diag by lia. reflexivity.
    + rewrite nth_error_app1 by (rewrite Hlen; lia). reflexivity.
Qed.

End Singleton.

Lemma getInstance_is_singleton_witness :
  let k := Coverage.no_instance in
  let k1 := fst (getInstance k) in
  let r1 := snd (getInstance k) in
  getInstance k1 = (k1, r1) /\
  r1 < List.length (objects k1) /\
  instance_allocated k1 /\
  firstn (List.length (objects k)) (objects k1) = objects k /\
  (instance k = None ->
   objects k1 = objects k ++ [None] /\ nth_error (objects k1) r1 = Some None) /\
  (let k2 := fst (getInstance (reset_instance k1)) in
   let r2 := snd (getInstance (reset_instance k1)) in
   r2 <> r1 /\
   nth_error (objects k2) r2 = Some None /\
   nth_error (objects k2) r1 = nth_error (objects k1) r1).
Proof.
  apply (getInstance_is_singleton Mock.engine Coverage.no_instance).
  intros r H. discriminate H.
Defined.
